(** * The tBNB faucet MCP server: payout orchestration and protocol gateway

    Shallow embedding of [python/faucet-mcp/mcp_server/main.py].

    The server is a sequence of calls to outside parties (the verification
    authority over HTTP, the chain over a web3 client, the uuid generator,
    the console).  The embedding keeps that shape:

    - JSON documents are a Rocq inductive ([json]); a Python [dict] is an
      association list read with [dict.get];
    - Python exceptions are values of type [exn], carrying their class (so
      that [except ValueError] and [except Exception] can be told apart) and
      their [str()];
    - every function of the source that can raise or that talks to an
      outside party lives in the monad [M]: it returns either an exception
      or a value, together with the chronological list of the outside calls
      it made ([event]);
    - what the outside parties answer is a record of oracles, [World].
      One request makes each outside call at most once (except [uuid4],
      which is numbered), so a function of the call's arguments is enough.

    Number literals of JSON are Python [int]s here ([Z]); literals with a
    fraction or an exponent are outside the model. *)

From Stdlib Require Import String Ascii ZArith List Bool Lia.
Import ListNotations.
Local Open Scope string_scope.
Local Open Scope Z_scope.
#[local] Set Warnings "-register-all".

(* ================================================================= *)
(** ** JSON values and the Python operations the source applies to them *)

Inductive json : Type :=
| JNull
| JBool (b : bool)
| JInt (n : Z)
| JStr (s : string)
| JArr (xs : list json)
| JObj (kvs : list (string * json)).

(** A Python [dict] with string keys, in insertion order. *)
Definition dict : Type := list (string * json).

(** [d.get(k)] with the result still optional. *)
Fixpoint dict_get (k : string) (d : dict) : option json :=
  match d with
  | [] => None
  | (k', v) :: rest => if (k' =? k)%string then Some v else dict_get k rest
  end.

(** [d.get(k, default)]. *)
Definition get_default (d : dict) (k : string) (default : json) : json :=
  match dict_get k d with
  | Some v => v
  | None => default
  end.

(** [d.get(k)]: the default is [None]. *)
Definition get (d : dict) (k : string) : json := get_default d k JNull.

(** Python truth value, as tested by [if x] and [not x]. *)
Definition truthy (v : json) : bool :=
  match v with
  | JNull => false
  | JBool b => b
  | JInt n => negb (n =? 0)
  | JStr s => negb (s =? "")%string
  | JArr xs => match xs with [] => false | _ :: _ => true end
  | JObj kvs => match kvs with [] => false | _ :: _ => true end
  end.

(** [type(v).__name__]. *)
Definition type_name (v : json) : string :=
  match v with
  | JNull => "NoneType"
  | JBool _ => "bool"
  | JInt _ => "int"
  | JStr _ => "str"
  | JArr _ => "list"
  | JObj _ => "dict"
  end.

(** [v == s] for a string literal [s]. *)
Definition eq_str (v : json) (s : string) : bool :=
  match v with
  | JStr s' => (s' =? s)%string
  | _ => false
  end.

Fixpoint mem_ascii (c : ascii) (chars : string) : bool :=
  match chars with
  | EmptyString => false
  | String c' rest => if Ascii.eqb c c' then true else mem_ascii c rest
  end.

(** [s.rstrip(chars)]: drops every trailing character that occurs in
    [chars]. *)
Fixpoint rstrip (chars s : string) : string :=
  match s with
  | EmptyString => EmptyString
  | String c rest =>
      match rstrip chars rest with
      | EmptyString => if mem_ascii c chars then EmptyString else String c EmptyString
      | kept => String c kept
      end
  end.

(* ================================================================= *)
(** ** Exceptions *)

Inductive exn_class : Type :=
| ValueError
| RuntimeError
| TypeError
| AttributeError
| ValidationError      (* pydantic; a subclass of ValueError *)
| JSONDecodeError      (* json; a subclass of ValueError *)
| HTTPStatusError      (* httpx; raised by raise_for_status *)
| TransportError       (* httpx; connection, timeout, protocol failures *)
| OtherError.          (* any other subclass of Exception *)

Record exn : Type := Exn { exn_class_of : exn_class; str : string }.

(** [isinstance(e, ValueError)], what [except ValueError] tests. *)
Definition is_ValueError (e : exn) : bool :=
  match exn_class_of e with
  | ValueError | ValidationError | JSONDecodeError => true
  | _ => false
  end.

Definition Result (A : Type) : Type := (exn + A)%type.

(* ================================================================= *)
(** ** Outside calls and the world that answers them *)

(** The three places of the source that call [uuid.uuid4()]. *)
Inductive uuid_site : Type :=
| BuilderIdDefault     (* default of arguments.get("builder_id", ...) *)
| EnvelopeIdDefault    (* default of body.get("id", ...) *)
| RequestId.           (* request_id = str(uuid.uuid4()) *)

Inductive event : Type :=
| EvUuid4 (site : uuid_site)
| EvHttpPost (timeout : Z) (url : string) (payload : json)
| EvGetTransactionCount (address : string)
| EvGasPrice
| EvSendRawTransaction (raw : string)
| EvWaitForTransactionReceipt (tx_hash : string)
| EvPrint (line : string).

(** The calls that leave the process. *)
Definition is_network (ev : event) : bool :=
  match ev with
  | EvHttpPost _ _ _ | EvGetTransactionCount _ | EvGasPrice
  | EvSendRawTransaction _ | EvWaitForTransactionReceipt _ => true
  | EvUuid4 _ | EvPrint _ => false
  end.

(** The calls made to the chain by the transaction engine. *)
Definition is_chain (ev : event) : bool :=
  match ev with
  | EvGetTransactionCount _ | EvGasPrice
  | EvSendRawTransaction _ | EvWaitForTransactionReceipt _ => true
  | _ => false
  end.

Definition is_broadcast (ev : event) : bool :=
  match ev with
  | EvSendRawTransaction _ => true
  | _ => false
  end.

Definition mints_request_id (ev : event) : bool :=
  match ev with
  | EvUuid4 RequestId => true
  | _ => false
  end.

Definition network_calls (t : list event) : list event := filter is_network t.

(** A body that is read with [.json()]: either the decoder raises, or it
    yields a value. *)
Inductive decoded : Type :=
| NotJson (msg : string)
| Json (v : json).

(** What [client.post] gives back: it raises a transport error, or it
    returns a response with a status code and a body. *)
Inductive http_reply : Type :=
| TransportFailure (msg : string)
| Reply (status_code : Z) (body : decoded).

Record UUID : Type := { hex : string; uuid_str : string }.

Record Decimal : Type := { coefficient : Z; exponent : Z }.

Record ChainTransaction : Type := {
  tx_to : string;
  tx_value : Z;
  tx_nonce : Z;
  tx_gas : Z;
  tx_gasPrice : Z;
  tx_chainId : Z
}.

Record Receipt : Type := { status : Z }.

Record World : Type := {
  (* module constants, fixed at start-up *)
  VERIFICATION_URL : string;
  DEFAULT_PAYOUT_AMOUNT : Decimal;
  PAYOUT_GAS_LIMIT : Z;
  CHAIN_ID : Z;
  treasury_address : string;
  (* the Python runtime and libraries *)
  uuid4 : nat -> UUID;                         (* the n-th uuid generated *)
  py_repr : json -> string;                    (* str() of a non-string value *)
  json_dumps : json -> string;                 (* json.dumps(_, indent=2) *)
  validation_error_str : dict -> string;       (* str() of a pydantic ValidationError *)
  http_status_error_str : Z -> string -> string; (* str() of an httpx.HTTPStatusError *)
  to_checksum_address : string -> Result string;
  to_wei : Decimal -> Result Z;                (* w3.to_wei(_, "ether") *)
  to_hex : string -> string;
  sign_transaction : ChainTransaction -> Result string; (* the rawTransaction *)
  (* the outside parties *)
  http_post : string -> json -> http_reply;
  eth_get_transaction_count : string -> Result Z;
  eth_gas_price : Result Z;
  eth_send_raw_transaction : string -> Result string;
  eth_wait_for_transaction_receipt : string -> Result Receipt
}.

(* ================================================================= *)
(** ** The monad of the source's functions

    A computation takes the number of uuids generated so far and returns
    its outcome, the outside calls it made in order, and the new count.
    The calls made before an exception are kept. *)

Definition M (A : Type) : Type := nat -> Result A * list event * nat.

Definition ret {A : Type} (a : A) : M A := fun n => (inr a, [], n).

Definition raise {A : Type} (e : exn) : M A := fun n => (inl e, [], n).

Definition lift {A : Type} (r : Result A) : M A := fun n => (r, [], n).

Definition bind {A B : Type} (m : M A) (k : A -> M B) : M B :=
  fun n =>
    match m n with
    | (inl e, t, n1) => (inl e, t, n1)
    | (inr a, t, n1) =>
        match k a n1 with
        | (r, t', n2) => (r, (t ++ t')%list, n2)
        end
    end.

(** [try: m  except Exception as e: h e]. *)
Definition try_except {A : Type} (m : M A) (h : exn -> M A) : M A :=
  fun n =>
    match m n with
    | (inl e, t, n1) =>
        match h e n1 with
        | (r, t', n2) => (r, (t ++ t')%list, n2)
        end
    | (inr a, t, n1) => (inr a, t, n1)
    end.

Definition emit (ev : event) : M unit := fun n => (inr tt, [ev], n).

(** An outside call: recorded, then answered. *)
Definition call {A : Type} (ev : event) (answer : Result A) : M A :=
  fun n => (answer, [ev], n).

Declare Scope monad_scope.
Delimit Scope monad_scope with monad.
Notation "x <- m ;; k" := (bind m (fun x => k))
  (at level 61, m at next level, right associativity) : monad_scope.
Notation "m ;;; k" := (bind m (fun _ => k))
  (at level 61, right associativity) : monad_scope.
Local Open Scope monad_scope.

Definition outcome {A : Type} (x : Result A * list event * nat) : Result A :=
  fst (fst x).
Definition events {A : Type} (x : Result A * list event * nat) : list event :=
  snd (fst x).

(** [v.get]: the attribute exists on a dict only. *)
Definition attr_get (v : json) : M dict :=
  match v with
  | JObj kvs => ret kvs
  | _ => raise (Exn AttributeError
                  ("'" ++ type_name v ++ "' object has no attribute 'get'"))
  end.

(* ================================================================= *)
(** ** Protocol and business models (pydantic) *)

Module JSONRPCRequest.
Record t : Type := mk {
  jsonrpc : string;
  id : json;               (* str | int | None *)
  method : string;
  params : option dict
}.
End JSONRPCRequest.

Module DisbursementRequest.
Record t : Type := mk {
  builder_id : string;
  wallet_address : string;
  github_username : string;
  channel : string
}.
End DisbursementRequest.

Module MCPTool.
Record t : Type := mk {
  name : string;
  description : string;
  inputSchema : json
}.

Definition model_dump (tool : t) : json :=
  JObj [("name", JStr (name tool));
        ("description", JStr (description tool));
        ("inputSchema", inputSchema tool)].
End MCPTool.

Record JSONResponse : Type := { status_code : Z; content : json }.

(** Field validators of [JSONRPCRequest] (pydantic, lax mode): [jsonrpc] is
    a string, default "2.0"; [id] is a string, an int or None, default None
    (a bool is taken as an int); [method] is a required string; [params] is
    a dict or None, default None. *)
Definition validate_jsonrpc (kvs : dict) : option string :=
  match dict_get "jsonrpc" kvs with
  | None => Some "2.0"
  | Some (JStr s) => Some s
  | Some _ => None
  end.

Definition validate_id (kvs : dict) : option json :=
  match dict_get "id" kvs with
  | None => Some JNull
  | Some JNull => Some JNull
  | Some (JStr s) => Some (JStr s)
  | Some (JInt n) => Some (JInt n)
  | Some (JBool b) => Some (JInt (if b then 1 else 0))
  | Some _ => None
  end.

Definition validate_method (kvs : dict) : option string :=
  match dict_get "method" kvs with
  | Some (JStr s) => Some s
  | _ => None
  end.

Definition validate_params (kvs : dict) : option (option dict) :=
  match dict_get "params" kvs with
  | None => Some None
  | Some JNull => Some None
  | Some (JObj d) => Some (Some d)
  | Some _ => None
  end.

(** What lines 317-356 of [mcp_call_tool] leave: a response returned
    early, or the tool call to run. *)
Inductive routed : Type :=
| Respond (response : JSONResponse)
| Dispatch (tool_name arguments request_id : json).

Section Server.

Variable W : World.

Definition fresh_uuid (site : uuid_site) : M UUID :=
  fun n => (inr (uuid4 W n), [EvUuid4 site], S n).

(** [str(v)] as an f-string renders it. *)
Definition py_str (v : json) : string :=
  match v with
  | JStr s => s
  | _ => py_repr W v
  end.

(** Construction of a [JSONRPCRequest] from the keys of [body]: the unpacking needs a mapping, then the fields are
    validated. *)
Definition JSONRPCRequest_new (body : json) : M JSONRPCRequest.t :=
  match body with
  | JObj kvs =>
      match validate_jsonrpc kvs, validate_id kvs,
            validate_method kvs, validate_params kvs with
      | Some j, Some i, Some m, Some p => ret (JSONRPCRequest.mk j i m p)
      | _, _, _, _ => raise (Exn ValidationError (validation_error_str W kvs))
      end
  | _ => raise (Exn TypeError
                  ("JSONRPCRequest() argument after ** must be a mapping, not "
                   ++ type_name body))
  end.

(** [DisbursementRequest(builder_id=..., ...)]: the four fields are
    strings. *)
Definition DisbursementRequest_new
    (builder_id wallet_address github_username channel : json)
    : M DisbursementRequest.t :=
  match builder_id, wallet_address, github_username, channel with
  | JStr b, JStr w, JStr g, JStr c => ret (DisbursementRequest.mk b w g c)
  | _, _, _, _ =>
      raise (Exn ValidationError
               (validation_error_str W
                  [("builder_id", builder_id);
                   ("wallet_address", wallet_address);
                   ("github_username", github_username);
                   ("channel", channel)]))
  end.

(* ================================================================= *)
(** ** Verification client *)

(** [await client.post(url, json=payload)]. *)
Definition post (timeout : Z) (url : string) (payload : json)
    : M (Z * decoded) :=
  emit (EvHttpPost timeout url payload) ;;;
  match http_post W url payload with
  | TransportFailure msg => raise (Exn TransportError msg)
  | Reply code body => ret (code, body)
  end.

Definition is_success (code : Z) : bool := (200 <=? code) && (code <=? 299).

(** [resp.raise_for_status()]. *)
Definition raise_for_status (url : string) (resp : Z * decoded) : M unit :=
  if is_success (fst resp) then ret tt
  else raise (Exn HTTPStatusError (http_status_error_str W (fst resp) url)).

(** [resp.json()]. *)
Definition resp_json (resp : Z * decoded) : M json :=
  match snd resp with
  | NotJson msg => raise (Exn JSONDecodeError msg)
  | Json v => ret v
  end.

Definition verify_payload (payload : DisbursementRequest.t) : json :=
  JObj [("wallet_address", JStr (DisbursementRequest.wallet_address payload));
        ("github_username", JStr (DisbursementRequest.github_username payload));
        ("requester_id", JStr (DisbursementRequest.builder_id payload));
        ("channel", JStr (DisbursementRequest.channel payload))].

Definition verify_wallet (payload : DisbursementRequest.t) : M json :=
  resp <- post 30 (VERIFICATION_URL W) (verify_payload payload) ;;
  raise_for_status (VERIFICATION_URL W) resp ;;;
  resp_json resp.

Definition record_payout_url : string :=
  rstrip "/verify" (VERIFICATION_URL W) ++ "/record-payout".

Definition record_payout (github_user_id : json) : M unit :=
  resp <- post 10 record_payout_url (JObj [("github_user_id", github_user_id)]) ;;
  raise_for_status record_payout_url resp.

(* ================================================================= *)
(** ** Transaction engine *)

Definition _send_tbnb (wallet_address : string) (amount : Decimal) : M string :=
  checksum_address <- lift (to_checksum_address W wallet_address) ;;
  value_wei <- lift (to_wei W amount) ;;
  if value_wei <=? 0 then
    raise (Exn ValueError "DEFAULT_PAYOUT_AMOUNT must be positive.")
  else
    nonce <- call (EvGetTransactionCount (treasury_address W))
                  (eth_get_transaction_count W (treasury_address W)) ;;
    gas_price <- call EvGasPrice (eth_gas_price W) ;;
    let tx := {| tx_to := checksum_address;
                 tx_value := value_wei;
                 tx_nonce := nonce;
                 tx_gas := PAYOUT_GAS_LIMIT W;
                 tx_gasPrice := gas_price;
                 tx_chainId := CHAIN_ID W |} in
    signed <- lift (sign_transaction W tx) ;;
    tx_hash <- call (EvSendRawTransaction signed)
                    (eth_send_raw_transaction W signed) ;;
    receipt <- call (EvWaitForTransactionReceipt tx_hash)
                    (eth_wait_for_transaction_receipt W tx_hash) ;;
    if negb (status receipt =? 1) then
      raise (Exn RuntimeError "On-chain transfer failed.")
    else
      ret (to_hex W tx_hash).

Definition initiate_payout (wallet_address : string) : M string :=
  _send_tbnb wallet_address (DEFAULT_PAYOUT_AMOUNT W).

(* ================================================================= *)
(** ** Payout orchestrator *)

(** Lines 169-183 of [process_tbnb_request]: the arguments are read,
    defaulted and checked, and the request payload is built. *)
Definition extract_arguments (arguments : json) : M DisbursementRequest.t :=
  args <- attr_get arguments ;;
  u <- fresh_uuid BuilderIdDefault ;;
  let builder_id :=
    get_default args "builder_id" (JStr ("user-" ++ substring 0 8 (hex u))) in
  let wallet_address := get args "wallet_address" in
  let github_username := get args "github_username" in
  let channel := get_default args "channel" (JStr "web") in
  if negb (truthy wallet_address) || negb (truthy github_username) then
    raise (Exn ValueError "wallet_address and github_username are required")
  else
    DisbursementRequest_new builder_id wallet_address github_username channel.

Definition approved (request_id tx_hash : string) (verification : json) : json :=
  JObj [("request_id", JStr request_id);
        ("status", JStr "approved");
        ("message", JStr "Disbursement submitted to BSC testnet");
        ("tx_hash", JStr tx_hash);
        ("verification", verification)].

(** Lines 199-204: the bookkeeping call, made when [github_user_id] is
    true in the Python sense; its exceptions are printed and dropped. *)
Definition record_if_present (github_user_id : json) : M unit :=
  if truthy github_user_id then
    try_except (record_payout github_user_id)
      (fun exc => emit (EvPrint ("Warning: Failed to record payout: " ++ str exc)))
  else ret tt.

(** Lines 193-214: the payout, the bookkeeping call and the result, inside
    the [try] whose handler wraps every exception in a [RuntimeError]. *)
Definition pay_and_record (payload : DisbursementRequest.t)
    (verification : json) (ver : dict) : M json :=
  u <- fresh_uuid RequestId ;;
  let request_id := uuid_str u in
  try_except
    (tx_hash <- initiate_payout (DisbursementRequest.wallet_address payload) ;;
     let github_user_id := get ver "github_user_id" in
     record_if_present github_user_id ;;;
     ret (approved request_id tx_hash verification))
    (fun exc => raise (Exn RuntimeError ("Payout failed: " ++ str exc))).

(** Lines 186-214. *)
Definition verify_and_pay (payload : DisbursementRequest.t) : M json :=
  verification <- verify_wallet payload ;;
  ver <- attr_get verification ;;
  if negb (truthy (get ver "verified")) then
    let reason := get_default ver "reason" (JStr "Unknown verification failure") in
    raise (Exn ValueError ("Verification failed: " ++ py_str reason))
  else
    pay_and_record payload verification ver.

Definition process_tbnb_request (arguments : json) : M json :=
  payload <- extract_arguments arguments ;;
  verify_and_pay payload.

(* ================================================================= *)
(** ** Tool definitions *)

Definition issue_tbnb_schema : json :=
  JObj [("type", JStr "object");
        ("properties",
         JObj [("github_username",
                JObj [("type", JStr "string");
                      ("description", JStr "GitHub username for verification. Must have at least 1 public repository and account age >= 30 days.")]);
               ("wallet_address",
                JObj [("type", JStr "string");
                      ("description", JStr "BSC (Binance Smart Chain) wallet address to receive tBNB. Must be a valid Ethereum-compatible address.")]);
               ("builder_id",
                JObj [("type", JStr "string");
                      ("description", JStr "Optional builder identifier (e.g., Discord/Telegram user ID). Defaults to auto-generated ID.")]);
               ("channel",
                JObj [("type", JStr "string");
                      ("description", JStr "Support channel where request originated. Options: 'discord', 'telegram', 'web'. Defaults to 'web'.");
                      ("enum", JArr [JStr "discord"; JStr "telegram"; JStr "web"]);
                      ("default", JStr "web")])]);
        ("required", JArr [JStr "github_username"; JStr "wallet_address"])].

Definition get_available_tools : list MCPTool.t :=
  [MCPTool.mk "issue_tbnb"
     "Request tBNB payout for a verified GitHub user. Verifies the user via GitHub API, checks account age, repository count, and rate limits, then sends tBNB to the specified wallet address on BSC testnet."
     issue_tbnb_schema].

(* ================================================================= *)
(** ** Protocol gateway *)

(** [request.json()]. *)
Definition request_json (request : decoded) : M json :=
  match request with
  | NotJson msg => raise (Exn JSONDecodeError msg)
  | Json v => ret v
  end.

Definition error_response (request_id : json) (code : Z)
    (message data : string) : JSONResponse :=
  {| status_code := 200;
     content := JObj [("jsonrpc", JStr "2.0");
                      ("id", request_id);
                      ("error", JObj [("code", JInt code);
                                      ("message", JStr message);
                                      ("data", JStr data)])] |}.

Definition tool_result_response (request_id : json) (text : string)
    (isError : bool) : JSONResponse :=
  {| status_code := 200;
     content := JObj [("jsonrpc", JStr "2.0");
                      ("id", request_id);
                      ("result",
                       JObj [("content",
                              JArr [JObj [("type", JStr "text");
                                          ("text", JStr text)]]);
                             ("isError", JBool isError)])] |}.

Definition tools_json : json := JArr (map MCPTool.model_dump get_available_tools).

Definition mcp_list_tools (request : decoded) : M JSONResponse :=
  try_except
    (body <- request_json request ;;
     jsonrpc_req <- JSONRPCRequest_new body ;;
     if negb (JSONRPCRequest.method jsonrpc_req =? "tools/list")%string then
       ret (error_response (JSONRPCRequest.id jsonrpc_req) (-32601)
              "Method not found"
              ("Unknown method: " ++ JSONRPCRequest.method jsonrpc_req))
     else
       ret {| status_code := 200;
              content := JObj [("jsonrpc", JStr "2.0");
                               ("id", JSONRPCRequest.id jsonrpc_req);
                               ("result", JObj [("tools", tools_json)])] |})
    (fun e =>
       ret {| status_code := 200;
              content := JObj [("tools", tools_json)] |}).

(** Lines 317-356: the body is read as a JSON-RPC request; on any
    exception it is read as a direct tool call. *)
Definition decode_envelope (body : json) : M routed :=
  try_except
    (jsonrpc_req <- JSONRPCRequest_new body ;;
     if negb (JSONRPCRequest.method jsonrpc_req =? "tools/call")%string then
       ret (Respond (error_response (JSONRPCRequest.id jsonrpc_req) (-32601)
                       "Method not found"
                       ("Unknown method: " ++ JSONRPCRequest.method jsonrpc_req)))
     else
       match JSONRPCRequest.params jsonrpc_req with
       | None | Some [] =>
           ret (Respond (error_response (JSONRPCRequest.id jsonrpc_req) (-32602)
                           "Invalid params" "Missing params"))
       | Some params =>
           ret (Dispatch (get params "name")
                         (get_default params "arguments" (JObj []))
                         (JSONRPCRequest.id jsonrpc_req))
       end)
    (fun _ =>
       b <- attr_get body ;;
       let tool_name := get b "name" in
       let arguments := get_default b "arguments" (JObj []) in
       u <- fresh_uuid EnvelopeIdDefault ;;
       let request_id := get_default b "id" (JStr (uuid_str u)) in
       ret (Dispatch tool_name arguments request_id)).

(** Lines 373-423: the tool runs; a [ValueError] becomes a tool result
    marked as an error, any other exception a JSON-RPC server error. *)
Definition call_issue_tbnb (arguments request_id : json) : M JSONResponse :=
  try_except
    (result <- process_tbnb_request arguments ;;
     ret (tool_result_response request_id (json_dumps W result) false))
    (fun e =>
       if is_ValueError e then
         ret (tool_result_response request_id
                (json_dumps W (JObj [("error", JStr (str e))])) true)
       else
         ret (error_response request_id (-32000) "Server error" (str e))).

(** Lines 358-436. *)
Definition execute_tool (tool_name arguments request_id : json) : M JSONResponse :=
  if negb (truthy tool_name) then
    ret (error_response request_id (-32602) "Invalid params" "Missing tool name")
  else if eq_str tool_name "issue_tbnb" then
    call_issue_tbnb arguments request_id
  else
    ret (error_response request_id (-32601) "Method not found"
           ("Unknown tool: " ++ py_str tool_name)).

Definition mcp_call_tool (request : decoded) : M JSONResponse :=
  try_except
    (body <- request_json request ;;
     r <- decode_envelope body ;;
     match r with
     | Respond response => ret response
     | Dispatch tool_name arguments request_id =>
         execute_tool tool_name arguments request_id
     end)
    (fun e => ret (error_response JNull (-32700) "Parse error" (str e))).

End Server.

(* ================================================================= *)
(** ** Worlds used to run the server on concrete requests *)



(** A small world: the verification authority answers [verify_reply], its
    record-payout endpoint [record_reply]; the address check, the amount
    conversion and the receipt status are given; the chain accepts the
    rest. *)
Definition demo_world (verify_reply record_reply : http_reply)
    (checksum : string -> Result string) (wei : Result Z)
    (receipt_status : Z) : World :=
  {| VERIFICATION_URL := "http://localhost:8080/verify";
     DEFAULT_PAYOUT_AMOUNT := {| coefficient := 3; exponent := -1 |};
     PAYOUT_GAS_LIMIT := 21000;
     CHAIN_ID := 97;
     treasury_address := "0xTreasury";
     uuid4 := fun n =>
       {| hex := "0123456789abcdef0123456789abcdef";
          uuid_str := "01234567-89ab-cdef-0123-456789abcdef" |};
     py_repr := fun v => "<" ++ type_name v ++ ">";
     json_dumps := fun v => "<json " ++ type_name v ++ ">";
     validation_error_str := fun _ => "validation error";
     http_status_error_str := fun _ url => "error response for url " ++ url;
     to_checksum_address := checksum;
     to_wei := fun _ => wei;
     to_hex := fun h => "0x" ++ h;
     sign_transaction := fun _ => inr "signed";
     http_post := fun url _ =>
       if (url =? "http://localhost:8080/verify")%string
       then verify_reply else record_reply;
     eth_get_transaction_count := fun _ => inr 7;
     eth_gas_price := inr 5000000000;
     eth_send_raw_transaction := fun _ => inr "beef";
     eth_wait_for_transaction_receipt := fun _ => inr {| status := receipt_status |} |}.

Definition verified_reply : http_reply :=
  Reply 200 (Json (JObj [("verified", JBool true); ("github_user_id", JInt 42)])).

Definition denied_reply : http_reply :=
  Reply 200 (Json (JObj [("verified", JBool false);
                         ("reason", JStr "account too new")])).

Definition alice_arguments : dict :=
  [("github_username", JStr "alice"); ("wallet_address", JStr "0xABC123")].

(** The two envelopes of a tool call: JSON-RPC and direct. *)
Definition rpc_body (arguments : json) : json :=
  JObj [("jsonrpc", JStr "2.0"); ("id", JInt 1); ("method", JStr "tools/call");
        ("params", JObj [("name", JStr "issue_tbnb"); ("arguments", arguments)])].


(** A world where everything succeeds. *)
Definition happy_world : World :=
  demo_world verified_reply (Reply 200 (Json (JObj []))) (fun w => inr w) (inr 300000000000000000) 1.

(** The chain reverts the transfer: the receipt has status 0. *)
Definition reverted_world : World :=
  demo_world verified_reply (Reply 200 (Json (JObj []))) (fun w => inr w)
    (inr 300000000000000000) 0.

(** The authority denies the request. *)
Definition denied_world : World :=
  demo_world denied_reply (Reply 200 (Json (JObj []))) (fun w => inr w)
    (inr 300000000000000000) 1.






(** The authority approves and supplies the user id 0. *)
Definition zero_id_world : World :=
  demo_world
    (Reply 200 (Json (JObj [("verified", JBool true); ("github_user_id", JInt 0)])))
    (Reply 200 (Json (JObj []))) (fun w => inr w) (inr 300000000000000000) 1.

(* ================================================================= *)
(** ** Readings of a response *)

(** The response is a JSON-RPC error object: a protocol-level error. *)
Definition protocol_error_code (response : JSONResponse) : option json :=
  match content response with
  | JObj kvs =>
      match dict_get "error" kvs with
      | Some (JObj err) => dict_get "code" err
      | _ => None
      end
  | _ => None
  end.

(** The [isError] mark of a tool result. *)
Definition tool_result_isError (response : JSONResponse) : option bool :=
  match content response with
  | JObj kvs =>
      match dict_get "result" kvs with
      | Some (JObj res) =>
          match dict_get "isError" res with
          | Some (JBool b) => Some b
          | _ => None
          end
      | _ => None
      end
  | _ => None
  end.

(** The field [k] of an optional JSON object. *)
Definition json_field (k : string) (v : option json) : option json :=
  match v with
  | Some (JObj kvs) => dict_get k kvs
  | _ => None
  end.



(* ================================================================= *)
(** ** Legacy REST endpoint *)

Module DisbursementResponse.
Record t : Type := mk {
  request_id : string;
  status : string;
  message : string;
  tx_hash : option string;
  verification : dict
}.
End DisbursementResponse.

(** How [request_tbnb] ends when no exception escapes it unconverted: it
    raises an [HTTPException], which nothing in the function catches, or it
    returns its response. *)
Inductive rest_reply : Type :=
| HTTPException (status_code : Z) (detail : string)
| Returned (response : DisbursementResponse.t).

(** Lines 455-486.  The payload has been validated by the framework.  The
    bookkeeping step of lines 471-476 is the one of the tool path. *)
Definition request_tbnb (W : World) (payload : DisbursementRequest.t)
    : M rest_reply :=
  verification <- verify_wallet W payload ;;
  ver <- attr_get verification ;;
  if negb (truthy (get ver "verified")) then
    let reason := get_default ver "reason" (JStr "Unknown verification failure") in
    ret (HTTPException 403 ("Verification failed: " ++ py_str W reason))
  else
    u <- fresh_uuid W RequestId ;;
    let request_id := uuid_str u in
    paid <- try_except
              (tx_hash <- initiate_payout W
                            (DisbursementRequest.wallet_address payload) ;;
               let github_user_id := get ver "github_user_id" in
               record_if_present W github_user_id ;;;
               ret (inr tx_hash))
              (fun exc => ret (inl (HTTPException 500 (str exc)))) ;;
    match paid with
    | inl raised => ret raised
    | inr tx_hash =>
        ret (Returned
               (DisbursementResponse.mk request_id "approved"
                  "Disbursement submitted to BSC testnet" (Some tx_hash) ver))
    end.

(* ================================================================= *)
(** ** Treasury account derivation *)

(** Python's whitespace among the ASCII characters: 9-13, 28-31 and 32.
    The secret is taken to be ASCII. *)
Definition is_space (c : ascii) : bool :=
  let k := nat_of_ascii c in
  ((9 <=? k)%nat && (k <=? 13)%nat) || ((28 <=? k)%nat && (k <=? 32)%nat).

Definition ascii_only (s : string) : Prop :=
  Forall (fun c => (nat_of_ascii c < 128)%nat) (list_ascii_of_string s).

(** [s.replace(old, new)] for one-character [old] and [new]. *)
Fixpoint replace (old new : ascii) (s : string) : string :=
  match s with
  | EmptyString => EmptyString
  | String c rest =>
      String (if Ascii.eqb c old then new else c) (replace old new rest)
  end.

Fixpoint lstrip_space (s : string) : string :=
  match s with
  | EmptyString => EmptyString
  | String c rest => if is_space c then lstrip_space rest else s
  end.

Fixpoint rstrip_space (s : string) : string :=
  match s with
  | EmptyString => EmptyString
  | String c rest =>
      match rstrip_space rest with
      | EmptyString => if is_space c then EmptyString else String c EmptyString
      | kept => String c kept
      end
  end.

(** [s.strip()]. *)
Definition strip (s : string) : string := lstrip_space (rstrip_space s).

Definition starts_with_space (s : string) : bool :=
  match s with
  | EmptyString => true
  | String c _ => is_space c
  end.

(** [s.split()]: the maximal runs of characters that are not whitespace. *)
Fixpoint split (s : string) : list string :=
  match s with
  | EmptyString => []
  | String c rest =>
      let ws := split rest in
      if is_space c then ws
      else
        match ws with
        | w :: ws' =>
            if starts_with_space rest then String c EmptyString :: ws
            else String c w :: ws'
        | [] => [String c EmptyString]
        end
  end.

(** Which constructor of [Account] is called, and on what. *)
Inductive account_source : Type :=
| from_mnemonic (words : string)
| from_key (key : string).

(** Lines 43-48. *)
Definition _derive_account (secret : string) : account_source :=
  let normalized := strip (replace "," " " secret) in
  if (12 <=? length (split normalized))%nat
     && forallb (fun w => negb (w =? "")%string) (split normalized)
  then from_mnemonic normalized
  else from_key (strip secret).

(** [sep.join(words)]. *)
Fixpoint join (sep : string) (words : list string) : string :=
  match words with
  | [] => EmptyString
  | [w] => w
  | w :: rest => w ++ sep ++ join sep rest
  end.

(** A word of a mnemonic or a key: not empty, without whitespace or
    comma. *)
Fixpoint plain (s : string) : bool :=
  match s with
  | EmptyString => true
  | String c rest => negb (is_space c) && negb (Ascii.eqb c ",") && plain rest
  end.

Definition word (s : string) : bool := negb (s =? "")%string && plain s.

Fixpoint spaceless (s : string) : bool :=
  match s with
  | EmptyString => true
  | String c rest => negb (is_space c) && spaceless rest
  end.





(* ================================================================= *)
(** ** Readings of a trace *)

Definition is_post (timeout : Z) (ev : event) : bool :=
  match ev with
  | EvHttpPost t _ _ => t =? timeout
  | _ => false
  end.


Fixpoint last_char (s : string) : option ascii :=
  match s with
  | EmptyString => None
  | String c EmptyString => Some c
  | String _ rest => last_char rest
  end.

(** The string does not end with a character of [chars]. *)
Definition ends_clear_of (chars s : string) : bool :=
  match last_char s with
  | None => true
  | Some c => negb (mem_ascii c chars)
  end.

(** The [id] member of a response. *)
Definition response_id (response : JSONResponse) : option json :=
  json_field "id" (Some (content response)).

(* ================================================================= *)
(** * Properties *)

(** ** The monad *)

Section MonadFacts.

Context {A B : Type}.

Lemma bind_inl (m : M A) (k : A -> M B) n e t n1 :
  m n = (inl e, t, n1) -> bind m k n = (inl e, t, n1).
Proof. intros H. unfold bind. now rewrite H. Qed.

Lemma bind_inr (m : M A) (k : A -> M B) n a t n1 :
  m n = (inr a, t, n1) ->
  bind m k n = (outcome (k a n1), (t ++ events (k a n1))%list, snd (k a n1)).
Proof.
  intros H. unfold bind, outcome, events. rewrite H.
  now destruct (k a n1) as [[r t'] n2].
Qed.

Lemma bind_inr_inv (m : M A) (k : A -> M B) n b t n' :
  bind m k n = (inr b, t, n') ->
  exists a t1 n1 t2,
    m n = (inr a, t1, n1) /\ k a n1 = (inr b, t2, n') /\ t = (t1 ++ t2)%list.
Proof.
  unfold bind. destruct (m n) as [[[e | a] t1] n1]; [discriminate |].
  destruct (k a n1) as [[r t2] n2] eqn:K. intros H. inversion H; subst.
  now exists a, t1, n1, t2.
Qed.

End MonadFacts.

Lemma try_except_inr {A : Type} (m : M A) (h : exn -> M A) n a t n1 :
  m n = (inr a, t, n1) -> try_except m h n = (inr a, t, n1).
Proof. intros H. unfold try_except. now rewrite H. Qed.

Lemma try_except_inl {A : Type} (m : M A) (h : exn -> M A) n e t n1 :
  m n = (inl e, t, n1) ->
  try_except m h n
  = (outcome (h e n1), (t ++ events (h e n1))%list, snd (h e n1)).
Proof.
  intros H. unfold try_except, outcome, events. rewrite H.
  now destruct (h e n1) as [[r t'] n2].
Qed.

(** Unfolds the monad's operations in the goal. *)
Ltac run :=
  unfold bind, try_except, lift, call, raise, ret, emit, fresh_uuid,
    outcome, events; simpl.

Ltac run_in H :=
  unfold bind, try_except, lift, call, raise, ret, emit, fresh_uuid,
    outcome, events in H; simpl in H.

(* ----------------------------------------------------------------- *)
(** ** Transaction engine *)

(** A hash is returned only after a broadcast whose receipt was read with
    status 1; the four chain calls were made in order. *)
Lemma _send_tbnb_inr W w a n h t n' :
  _send_tbnb W w a n = (inr h, t, n') ->
  exists raw tx_hash rc,
    eth_send_raw_transaction W raw = inr tx_hash /\
    eth_wait_for_transaction_receipt W tx_hash = inr rc /\
    status rc = 1 /\
    h = to_hex W tx_hash /\
    t = [EvGetTransactionCount (treasury_address W); EvGasPrice;
         EvSendRawTransaction raw; EvWaitForTransactionReceipt tx_hash] /\
    n' = n.
Proof.
  unfold _send_tbnb. run.
  destruct (to_checksum_address W w) as [e | ck]; [discriminate |].
  destruct (to_wei W a) as [e | v]; [discriminate |]. simpl.
  destruct (v <=? 0); [discriminate |]. simpl.
  destruct (eth_get_transaction_count W (treasury_address W)) as [e | nonce];
    [discriminate |].
  destruct (eth_gas_price W) as [e | gp]; [discriminate |].
  destruct (sign_transaction W _) as [e | raw]; [discriminate |].
  destruct (eth_send_raw_transaction W raw) as [e | txh] eqn:Hsend;
    [discriminate |].
  destruct (eth_wait_for_transaction_receipt W txh) as [e | rc] eqn:Hwait;
    [discriminate |].
  destruct (status rc =? 1) eqn:Hst; simpl; [| discriminate].
  intros H. inversion H; subst. apply Z.eqb_eq in Hst.
  exists raw, txh, rc. repeat split; assumption.
Qed.

(** Once the receipt of [tx_hash] has been waited for, the receipt alone
    decides: status 1 returns the hash, any other status raises. *)
Lemma _send_tbnb_receipt W w a n tx_hash rc :
  In (EvWaitForTransactionReceipt tx_hash) (events (_send_tbnb W w a n)) ->
  eth_wait_for_transaction_receipt W tx_hash = inr rc ->
  outcome (_send_tbnb W w a n)
  = (if status rc =? 1 then inr (to_hex W tx_hash)
     else inl (Exn RuntimeError "On-chain transfer failed.")) /\
  snd (_send_tbnb W w a n) = n.
Proof.
  unfold _send_tbnb. run.
  destruct (to_checksum_address W w) as [e | ck]; simpl; [tauto |].
  destruct (to_wei W a) as [e | v]; simpl; [tauto |].
  destruct (v <=? 0); simpl; [tauto |].
  destruct (eth_get_transaction_count W (treasury_address W)) as [e | nonce];
    simpl; [intuition discriminate |].
  destruct (eth_gas_price W) as [e | gp]; simpl; [intuition discriminate |].
  destruct (sign_transaction W _) as [e | raw]; simpl; [intuition discriminate |].
  destruct (eth_send_raw_transaction W raw) as [e | txh] eqn:Hsend; simpl;
    [intuition discriminate |].
  destruct (eth_wait_for_transaction_receipt W txh) as [e | rc'] eqn:Hwait; simpl.
  - intros [H | [H | [H | [H | []]]]]; try discriminate.
    inversion H; subst. congruence.
  - destruct (status rc' =? 1) eqn:Hst; simpl;
      (intros [H | [H | [H | [H | []]]]]; try discriminate;
       inversion H; subst; intros Hrc; rewrite Hwait in Hrc;
       inversion Hrc; subst; rewrite Hst; auto).
Qed.

(** The engine never changes the uuid count, and all its calls go to the
    chain. *)
Lemma _send_tbnb_frame W w a n :
  snd (_send_tbnb W w a n) = n /\
  Forall (fun ev => is_chain ev = true) (events (_send_tbnb W w a n)).
Proof.
  unfold _send_tbnb. run.
  destruct (to_checksum_address W w) as [e | ck]; simpl; [auto |].
  destruct (to_wei W a) as [e | v]; simpl; [auto |].
  destruct (v <=? 0); simpl; [auto |].
  destruct (eth_get_transaction_count W (treasury_address W)) as [e | nonce];
    simpl; [split; [reflexivity | repeat constructor] |].
  destruct (eth_gas_price W) as [e | gp]; simpl;
    [split; [reflexivity | repeat constructor] |].
  destruct (sign_transaction W _) as [e | raw]; simpl;
    [split; [reflexivity | repeat constructor] |].
  destruct (eth_send_raw_transaction W raw) as [e | txh]; simpl;
    [split; [reflexivity | repeat constructor] |].
  destruct (eth_wait_for_transaction_receipt W txh) as [e | rc]; simpl;
    [split; [reflexivity | repeat constructor] |].
  destruct (status rc =? 1); simpl; split; try reflexivity; repeat constructor.
Qed.



(* ----------------------------------------------------------------- *)
(** ** Verification client *)

(** One POST, then the status check, then the decoding of the body. *)
Lemma verify_wallet_run W p n :
  verify_wallet W p n
  = (match http_post W (VERIFICATION_URL W) (verify_payload p) with
     | TransportFailure msg => inl (Exn TransportError msg)
     | Reply code body =>
         if is_success code then
           match body with
           | NotJson msg => inl (Exn JSONDecodeError msg)
           | Json v => inr v
           end
         else inl (Exn HTTPStatusError
                     (http_status_error_str W code (VERIFICATION_URL W)))
     end,
     [EvHttpPost 30 (VERIFICATION_URL W) (verify_payload p)], n).
Proof.
  unfold verify_wallet, post, raise_for_status, resp_json. run.
  destruct (http_post W (VERIFICATION_URL W) (verify_payload p))
    as [msg | code body]; simpl; [reflexivity |].
  destruct (is_success code); simpl; [| reflexivity].
  destruct body; reflexivity.
Qed.

(** The bookkeeping step never raises and leaves the uuid count alone; it
    posts exactly when its argument is true in the Python sense. *)
Lemma record_if_present_run W g n :
  exists t,
    record_if_present W g n = (inr tt, t, n) /\
    Forall (fun ev => is_chain ev = false) t /\
    (truthy g = true ->
     exists rest,
       t = EvHttpPost 10 (record_payout_url W) (JObj [("github_user_id", g)])
           :: rest /\
       forall to url p, ~ In (EvHttpPost to url p) rest) /\
    (truthy g = false -> t = []).
Proof.
  unfold record_if_present, record_payout, post, raise_for_status.
  destruct (truthy g); run.
  - destruct (http_post W _ _) as [msg | code body]; simpl.
    + eexists. split; [reflexivity |]. split; [repeat constructor |].
      split; [| discriminate]. intros _. eexists. split; [reflexivity |].
      intros to url p [H | []]. discriminate.
    + destruct (is_success code); simpl;
        (eexists; split; [reflexivity |]; split; [repeat constructor |];
         split; [| discriminate]; intros _; eexists; split; [reflexivity |];
         simpl; intros to url p; intuition discriminate).
  - exists []. repeat split; try constructor; discriminate.
Qed.

(* ----------------------------------------------------------------- *)
(** ** Payout orchestrator *)

(** Reading the arguments makes no outside call except the uuid of the
    default builder id. *)
Lemma extract_arguments_frame W arguments n :
  (exists e, extract_arguments W arguments n = (inl e, [], n)) \/
  (exists r, extract_arguments W arguments n
             = (r, [EvUuid4 BuilderIdDefault], S n)).
Proof.
  unfold extract_arguments, attr_get, DisbursementRequest_new.
  destruct arguments; run; try (left; eexists; reflexivity).
  right.
  destruct (negb (truthy (get kvs "wallet_address"))
            || negb (truthy (get kvs "github_username"))); simpl;
    [eexists; reflexivity |].
  destruct (get_default kvs "builder_id" _), (get kvs "wallet_address"),
    (get kvs "github_username"), (get_default kvs "channel" _);
    eexists; reflexivity.
Qed.


(** The payload built from four strings. *)
Lemma extract_arguments_strings W args n w g c :
  get args "wallet_address" = JStr w -> w <> "" ->
  get args "github_username" = JStr g -> g <> "" ->
  get_default args "channel" (JStr "web") = JStr c ->
  forall b,
    get_default args "builder_id"
      (JStr ("user-" ++ substring 0 8 (hex (uuid4 W n)))) = JStr b ->
    extract_arguments W (JObj args) n
    = (inr (DisbursementRequest.mk b w g c), [EvUuid4 BuilderIdDefault], S n).
Proof.
  intros Hw Hw' Hg Hg' Hc b Hb. unfold extract_arguments, attr_get.
  unfold bind, ret, raise, fresh_uuid. cbv beta iota.
  rewrite Hw, Hg, Hc, Hb. simpl.
  apply String.eqb_neq in Hw', Hg'. rewrite Hw', Hg'. reflexivity.
Qed.

(** After verification: the request id is minted, the engine runs, and
    either its exception is wrapped or the approval is returned, whatever
    the bookkeeping step did. *)
Lemma pay_and_record_run W payload verification ver n :
  let sent := _send_tbnb W (DisbursementRequest.wallet_address payload)
                (DEFAULT_PAYOUT_AMOUNT W) (S n) in
  pay_and_record W payload verification ver n
  = match outcome sent with
    | inl e =>
        (inl (Exn RuntimeError ("Payout failed: " ++ str e)),
         EvUuid4 RequestId :: events sent, S n)
    | inr h =>
        (inr (approved (uuid_str (uuid4 W n)) h verification),
         EvUuid4 RequestId
         :: (events sent
             ++ events (record_if_present W (get ver "github_user_id") (S n)))%list,
         S n)
    end.
Proof.
  intros sent.
  destruct (_send_tbnb_frame W (DisbursementRequest.wallet_address payload)
              (DEFAULT_PAYOUT_AMOUNT W) (S n)) as [Hn _].
  destruct (record_if_present_run W (get ver "github_user_id") (S n))
    as (tr & Hr & _).
  unfold pay_and_record, initiate_payout. fold sent in Hn |- *.
  unfold bind at 1. unfold fresh_uuid at 1. cbv beta iota.
  destruct sent as [[[e | h] ts] ns] eqn:Hs; simpl in Hn; subst ns.
  - rewrite (try_except_inl _ _ _ e ts (S n)).
    + run. now rewrite app_nil_r.
    + apply bind_inl. exact Hs.
  - rewrite (try_except_inr _ _ _ (approved (uuid_str (uuid4 W n)) h verification)
               (ts ++ tr)%list (S n)).
    + rewrite Hr. reflexivity.
    + rewrite (bind_inr _ _ _ h ts (S n) Hs).
      unfold bind at 1 2 3. rewrite Hr. run. now rewrite app_nil_r.
Qed.

(** The verdict decides: an exception of the client passes through, a
    verdict that is not a dict has no [get], a verdict that is not true is
    refused with its reason, and only a true verdict reaches the payout. *)
Lemma verify_and_pay_run W p n :
  let asked := EvHttpPost 30 (VERIFICATION_URL W) (verify_payload p) in
  verify_and_pay W p n
  = match outcome (verify_wallet W p n) with
    | inl e => (inl e, [asked], n)
    | inr (JObj ver) =>
        if truthy (get ver "verified") then
          (outcome (pay_and_record W p (JObj ver) ver n),
           asked :: events (pay_and_record W p (JObj ver) ver n),
           snd (pay_and_record W p (JObj ver) ver n))
        else
          (inl (Exn ValueError
                  ("Verification failed: "
                   ++ py_str W (get_default ver "reason"
                                  (JStr "Unknown verification failure")))),
           [asked], n)
    | inr v =>
        (inl (Exn AttributeError
                ("'" ++ type_name v ++ "' object has no attribute 'get'")),
         [asked], n)
    end.
Proof.
  intros asked. unfold verify_and_pay. unfold bind at 1.
  rewrite verify_wallet_run. unfold outcome at 1. cbv [fst].
  destruct (http_post W (VERIFICATION_URL W) (verify_payload p))
    as [msg | code body]; [reflexivity |].
  destruct (is_success code); [| reflexivity].
  destruct body as [msg | v]; [reflexivity |].
  destruct v; try reflexivity.
  unfold attr_get, bind, ret, raise. cbv beta iota.
  destruct (truthy (get kvs "verified")); cbv [negb].
  - unfold outcome, events.
    now destruct (pay_and_record W p (JObj kvs) kvs n) as [[r t] n'].
  - reflexivity.
Qed.

Lemma process_tbnb_request_run W arguments n :
  process_tbnb_request W arguments n
  = match extract_arguments W arguments n with
    | (inl e, t, n1) => (inl e, t, n1)
    | (inr payload, t, n1) =>
        (outcome (verify_and_pay W payload n1),
         (t ++ events (verify_and_pay W payload n1))%list,
         snd (verify_and_pay W payload n1))
    end.
Proof.
  unfold process_tbnb_request, bind, outcome, events.
  destruct (extract_arguments W arguments n) as [[[e | payload] t] n1];
    [reflexivity |].
  now destruct (verify_and_pay W payload n1) as [[r t'] n2].
Qed.

(** An approval is returned only when the engine read a receipt with
    status 1 for the hash it reports. *)
Lemma process_tbnb_request_inr W arguments n result t n' :
  process_tbnb_request W arguments n = (inr result, t, n') ->
  exists request_id tx_hash rc verification,
    result = approved request_id (to_hex W tx_hash) verification /\
    In (EvWaitForTransactionReceipt tx_hash) t /\
    eth_wait_for_transaction_receipt W tx_hash = inr rc /\
    status rc = 1.
Proof.
  rewrite process_tbnb_request_run.
  destruct (extract_arguments W arguments n) as [[[e | payload] t0] n0];
    [discriminate |].
  rewrite verify_and_pay_run.
  destruct (outcome (verify_wallet W payload n0)) as [e | v];
    [discriminate |].
  destruct v; try discriminate.
  destruct (truthy (get kvs "verified")); [| discriminate].
  rewrite pay_and_record_run.
  destruct (_send_tbnb W _ _ (S n0)) as [[[e | h] ts] ns] eqn:Hs;
    unfold outcome, events; simpl; [discriminate |].
  intros H. inversion H; subst.
  apply _send_tbnb_inr in Hs.
  destruct Hs as (raw & txh & rc & _ & Hwait & Hst & -> & -> & _).
  exists (uuid_str (uuid4 W n0)), txh, rc, (JObj kvs).
  repeat split; try assumption.
  apply in_or_app. right. simpl. tauto.
Qed.

(** Once a receipt has been waited for, it alone decides the outcome of
    the request. *)
Lemma process_tbnb_request_receipt W arguments n tx_hash rc :
  In (EvWaitForTransactionReceipt tx_hash)
     (events (process_tbnb_request W arguments n)) ->
  eth_wait_for_transaction_receipt W tx_hash = inr rc ->
  exists request_id verification,
    outcome (process_tbnb_request W arguments n)
    = if status rc =? 1
      then inr (approved request_id (to_hex W tx_hash) verification)
      else inl (Exn RuntimeError "Payout failed: On-chain transfer failed.").
Proof.
  rewrite process_tbnb_request_run.
  destruct (extract_arguments_frame W arguments n) as [[e He] | [r Hr]].
  { rewrite He. unfold events. simpl. tauto. }
  rewrite Hr. destruct r as [e | payload].
  { unfold events. simpl. intuition discriminate. }
  rewrite verify_and_pay_run.
  destruct (outcome (verify_wallet W payload (S n))) as [e | v].
  { unfold events. simpl. intuition discriminate. }
  destruct v; try (unfold events; simpl; intuition discriminate).
  destruct (truthy (get kvs "verified"));
    [| unfold events; simpl; intuition discriminate].
  rewrite pay_and_record_run.
  pose proof (_send_tbnb_receipt W (DisbursementRequest.wallet_address payload)
                (DEFAULT_PAYOUT_AMOUNT W) (S (S n)) tx_hash rc) as Hrec.
  destruct (record_if_present_run W (get kvs "github_user_id") (S (S n)))
    as (tr & Hr' & Hnochain & _).
  destruct (_send_tbnb W _ _ (S (S n))) as [[[e | h] ts] ns] eqn:Hs;
    unfold outcome, events in *; simpl in *.
  - intros [H | [H | [H | H]]] Hwait; try discriminate.
    destruct (Hrec H Hwait) as [Ho _].
    exists (uuid_str (uuid4 W (S n))), (JObj kvs).
    destruct (status rc =? 1); inversion Ho; subst. reflexivity.
  - rewrite Hr'. simpl.
    intros [H | [H | [H | H]]] Hwait; try discriminate.
    apply in_app_or in H. destruct H as [H | H].
    + destruct (Hrec H Hwait) as [Ho _].
      exists (uuid_str (uuid4 W (S n))), (JObj kvs).
      destruct (status rc =? 1); inversion Ho; subst. reflexivity.
    + rewrite Forall_forall in Hnochain. apply Hnochain in H. discriminate.
Qed.

(* ----------------------------------------------------------------- *)
(** ** Protocol gateway *)

(** The three handlers of the tool call, and the fact that it always
    answers. *)
Lemma call_issue_tbnb_run W arguments request_id n :
  call_issue_tbnb W arguments request_id n
  = (inr match outcome (process_tbnb_request W arguments n) with
         | inr result =>
             tool_result_response request_id (json_dumps W result) false
         | inl e =>
             if is_ValueError e then
               tool_result_response request_id
                 (json_dumps W (JObj [("error", JStr (str e))])) true
             else error_response request_id (-32000) "Server error" (str e)
         end,
     events (process_tbnb_request W arguments n),
     snd (process_tbnb_request W arguments n)).
Proof.
  unfold call_issue_tbnb, try_except, bind, ret, outcome, events.
  destruct (process_tbnb_request W arguments n) as [[[e | result] t] n1];
    simpl.
  - destruct (is_ValueError e); simpl; now rewrite app_nil_r.
  - now rewrite app_nil_r.
Qed.

Lemma execute_tool_total W tool_name arguments request_id n :
  exists response,
    outcome (execute_tool W tool_name arguments request_id n) = inr response.
Proof.
  unfold execute_tool.
  destruct (negb (truthy tool_name)); [eexists; reflexivity |].
  destruct (eq_str tool_name "issue_tbnb"); [| eexists; reflexivity].
  rewrite call_issue_tbnb_run. eexists. reflexivity.
Qed.

(** Reading the envelope makes no outside call except the uuid of the
    default envelope id; it raises only on a body that has no [get]; a
    response it returns early is a JSON-RPC error. *)
Lemma decode_envelope_frame W body n :
  (exists e, decode_envelope W body n = (inl e, [], n)) \/
  (exists id code message data,
     decode_envelope W body n
     = (inr (Respond (error_response id code message data)), [], n)) \/
  (exists tool_name arguments request_id,
     decode_envelope W body n
     = (inr (Dispatch tool_name arguments request_id), [], n)) \/
  (exists tool_name arguments request_id,
     decode_envelope W body n
     = (inr (Dispatch tool_name arguments request_id),
        [EvUuid4 EnvelopeIdDefault], S n)).
Proof.
  unfold decode_envelope, JSONRPCRequest_new, attr_get.
  destruct body; run; try (left; eexists; reflexivity).
  destruct (validate_jsonrpc kvs), (validate_id kvs), (validate_method kvs),
    (validate_params kvs) as [[p|]|]; simpl;
    try (right; right; right; do 3 eexists; reflexivity).
  - destruct (negb (s0 =? "tools/call")%string); simpl.
    + right; left. do 4 eexists. reflexivity.
    + destruct p; simpl.
      * right; left. do 4 eexists. reflexivity.
      * right; right; left. do 3 eexists. reflexivity.
  - destruct (negb (s0 =? "tools/call")%string); simpl;
      right; left; do 4 eexists; reflexivity.
Qed.

Lemma mcp_call_tool_run W body n :
  mcp_call_tool W (Json body) n
  = match decode_envelope W body n with
    | (inl e, t, n1) =>
        (inr (error_response JNull (-32700) "Parse error" (str e)), t, n1)
    | (inr (Respond response), t, n1) => (inr response, t, n1)
    | (inr (Dispatch tool_name arguments request_id), t, n1) =>
        (outcome (execute_tool W tool_name arguments request_id n1),
         (t ++ events (execute_tool W tool_name arguments request_id n1))%list,
         snd (execute_tool W tool_name arguments request_id n1))
    end.
Proof.
  unfold mcp_call_tool, request_json.
  unfold try_except, bind at 1, ret at 1. cbv beta iota.
  unfold bind. 
  destruct (decode_envelope W body n) as [[[e | [resp | tn a rid]] t] n1];
    simpl.
  - now rewrite app_nil_r.
  - unfold ret. now rewrite app_nil_r.
  - destruct (execute_tool_total W tn a rid n1) as [resp Hresp].
    unfold outcome, events in *.
    destruct (execute_tool W tn a rid n1) as [[r t'] n2]. simpl in *.
    now subst r.
Qed.


(** Every answer of the tool-call endpoint is a response. *)
Lemma mcp_call_tool_total W request n :
  exists response, outcome (mcp_call_tool W request n) = inr response.
Proof.
  destruct request as [msg | body]; [eexists; reflexivity |].
  rewrite mcp_call_tool_run.
  destruct (decode_envelope W body n) as [[[e | [resp | tn a rid]] t] n1];
    try (eexists; reflexivity).
  destruct (execute_tool_total W tn a rid n1) as [resp Hresp].
  exists resp. exact Hresp.
Qed.

(** Once a receipt has been waited for, it alone decides the answer. *)
Lemma mcp_call_tool_receipt W request n tx_hash rc :
  In (EvWaitForTransactionReceipt tx_hash) (events (mcp_call_tool W request n)) ->
  eth_wait_for_transaction_receipt W tx_hash = inr rc ->
  exists id request_id verification,
    outcome (mcp_call_tool W request n)
    = inr (if status rc =? 1
           then tool_result_response id
                  (json_dumps W (approved request_id (to_hex W tx_hash) verification))
                  false
           else error_response id (-32000) "Server error"
                  "Payout failed: On-chain transfer failed.").
Proof.
  destruct request as [msg | body]; [simpl; tauto |].
  rewrite mcp_call_tool_run.
  assert (Hexec : forall tn a rid k,
    In (EvWaitForTransactionReceipt tx_hash) (events (execute_tool W tn a rid k)) ->
    eth_wait_for_transaction_receipt W tx_hash = inr rc ->
    exists id request_id verification,
      outcome (execute_tool W tn a rid k)
      = inr (if status rc =? 1
             then tool_result_response id
                    (json_dumps W (approved request_id (to_hex W tx_hash) verification))
                    false
             else error_response id (-32000) "Server error"
                    "Payout failed: On-chain transfer failed.")).
  { intros tn a rid k. unfold execute_tool.
    destruct (negb (truthy tn)); [simpl; tauto |].
    destruct (eq_str tn "issue_tbnb"); [| simpl; tauto].
    rewrite call_issue_tbnb_run. unfold events at 1, outcome at 1. simpl.
    intros Hin Hwait.
    destruct (process_tbnb_request_receipt W a k tx_hash rc Hin Hwait)
      as (request_id & verification & Ho).
    rewrite Ho. exists rid, request_id, verification.
    destruct (status rc =? 1); reflexivity. }
  destruct (decode_envelope_frame W body n)
    as [[e H] | [(id & c & m & d & H) | [(tn & a & rid & H) | (tn & a & rid & H)]]];
    rewrite H; unfold events at 1, outcome at 1; simpl; try tauto.
  - apply Hexec.
  - intros [Hin | Hin]; [discriminate |]. now apply Hexec.
Qed.

(** A tool result that is not marked as an error reports a hash whose
    receipt was read with status 1. *)
Lemma mcp_call_tool_approved W request n response t n' :
  mcp_call_tool W request n = (inr response, t, n') ->
  tool_result_isError response = Some false ->
  exists id request_id tx_hash rc verification,
    response = tool_result_response id
                 (json_dumps W (approved request_id (to_hex W tx_hash) verification))
                 false /\
    In (EvWaitForTransactionReceipt tx_hash) t /\
    eth_wait_for_transaction_receipt W tx_hash = inr rc /\
    status rc = 1.
Proof.
  destruct request as [msg | body].
  { intros H. inversion H; subst. discriminate. }
  rewrite mcp_call_tool_run.
  assert (Hexec : forall tn a rid k t0,
    (outcome (execute_tool W tn a rid k),
     (t0 ++ events (execute_tool W tn a rid k))%list,
     snd (execute_tool W tn a rid k)) = (inr response, t, n') ->
    tool_result_isError response = Some false ->
    exists id request_id tx_hash rc verification,
      response = tool_result_response id
                   (json_dumps W (approved request_id (to_hex W tx_hash) verification))
                   false /\
      In (EvWaitForTransactionReceipt tx_hash) t /\
      eth_wait_for_transaction_receipt W tx_hash = inr rc /\
      status rc = 1).
  { intros tn a rid k t0. unfold execute_tool.
    destruct (negb (truthy tn)).
    { intros H. inversion H; subst. discriminate. }
    destruct (eq_str tn "issue_tbnb").
    2:{ intros H. inversion H; subst. discriminate. }
    rewrite call_issue_tbnb_run. unfold events at 1, outcome at 1. simpl.
    destruct (process_tbnb_request W a k) as [[[e | result] tp] np] eqn:Hp;
      unfold outcome, events; simpl.
    - destruct (is_ValueError e); intros H; inversion H; subst; discriminate.
    - intros H _. inversion H; subst.
      destruct (process_tbnb_request_inr W a k result tp n' Hp)
        as (request_id & txh & rc & verification & -> & Hin & Hwait & Hst).
      exists rid, request_id, txh, rc, verification.
      repeat split; try assumption. apply in_or_app. now right. }
  destruct (decode_envelope_frame W body n)
    as [[e H] | [(id & c & m & d & H) | [(tn & a & rid & H) | (tn & a & rid & H)]]];
    rewrite H.
  - intros H'. inversion H'; subst. discriminate.
  - intros H'. inversion H'; subst. discriminate.
  - apply Hexec.
  - apply Hexec.
Qed.

(* ----------------------------------------------------------------- *)
(** ** The bookkeeping reply has no say in the outcome *)





(* ----------------------------------------------------------------- *)
(** ** The stages of a request, forwards *)

Lemma extract_arguments_inr W arguments n payload :
  outcome (extract_arguments W arguments n) = inr payload ->
  extract_arguments W arguments n
  = (inr payload, [EvUuid4 BuilderIdDefault], S n).
Proof.
  destruct (extract_arguments_frame W arguments n) as [[e H] | [r H]];
    rewrite H; unfold outcome; simpl; intros Hr; [discriminate |].
  now subst r.
Qed.


(** The verdict could not be obtained: the client's exception is the
    outcome, after the single POST. *)
Lemma process_tbnb_request_unverified W arguments n payload e :
  outcome (extract_arguments W arguments n) = inr payload ->
  outcome (verify_wallet W payload (S n)) = inl e ->
  process_tbnb_request W arguments n
  = (inl e,
     [EvUuid4 BuilderIdDefault;
      EvHttpPost 30 (VERIFICATION_URL W) (verify_payload payload)],
     S n).
Proof.
  intros Hx Hv. apply extract_arguments_inr in Hx.
  rewrite process_tbnb_request_run, Hx, verify_and_pay_run, Hv. reflexivity.
Qed.

(** The verdict is a dict: it is refused, or the payout stage runs. *)
Lemma process_tbnb_request_verdict W arguments n payload ver :
  outcome (extract_arguments W arguments n) = inr payload ->
  outcome (verify_wallet W payload (S n)) = inr (JObj ver) ->
  process_tbnb_request W arguments n
  = if truthy (get ver "verified") then
      (outcome (pay_and_record W payload (JObj ver) ver (S n)),
       EvUuid4 BuilderIdDefault
       :: EvHttpPost 30 (VERIFICATION_URL W) (verify_payload payload)
       :: events (pay_and_record W payload (JObj ver) ver (S n)),
       snd (pay_and_record W payload (JObj ver) ver (S n)))
    else
      (inl (Exn ValueError
              ("Verification failed: "
               ++ py_str W (get_default ver "reason"
                              (JStr "Unknown verification failure")))),
       [EvUuid4 BuilderIdDefault;
        EvHttpPost 30 (VERIFICATION_URL W) (verify_payload payload)],
       S n).
Proof.
  intros Hx Hv. apply extract_arguments_inr in Hx.
  rewrite process_tbnb_request_run, Hx, verify_and_pay_run, Hv.
  destruct (truthy (get ver "verified")); reflexivity.
Qed.

(** What the client returns on a 2xx reply with a JSON body. *)
Lemma verify_wallet_reply W payload n code v :
  http_post W (VERIFICATION_URL W) (verify_payload payload)
  = Reply code (Json v) ->
  is_success code = true ->
  outcome (verify_wallet W payload n) = inr v.
Proof.
  intros H Hc. rewrite verify_wallet_run. unfold outcome. simpl.
  now rewrite H, Hc.
Qed.

(** An approval, with everything that was done for it. *)
Lemma process_tbnb_request_inr_trace W arguments n result t n' :
  process_tbnb_request W arguments n = (inr result, t, n') ->
  exists payload ver h ts,
    result = approved (uuid_str (uuid4 W (S n))) h (JObj ver) /\
    t = (EvUuid4 BuilderIdDefault
         :: EvHttpPost 30 (VERIFICATION_URL W) (verify_payload payload)
         :: EvUuid4 RequestId
         :: ts ++ events (record_if_present W (get ver "github_user_id")
                            (S (S n))))%list /\
    Forall (fun ev => is_chain ev = true) ts.
Proof.
  intros H.
  destruct (extract_arguments W arguments n) as [[[e | payload] t0] n0] eqn:Hx.
  { rewrite process_tbnb_request_run, Hx in H. discriminate. }
  assert (Hx' : outcome (extract_arguments W arguments n) = inr payload)
    by now rewrite Hx.
  destruct (outcome (verify_wallet W payload (S n))) as [e | v] eqn:Hv.
  { rewrite (process_tbnb_request_unverified W arguments n payload e Hx' Hv) in H.
    discriminate. }
  destruct v;
    try (apply extract_arguments_inr in Hx';
         rewrite process_tbnb_request_run, Hx', verify_and_pay_run, Hv in H;
         discriminate).
  rewrite (process_tbnb_request_verdict W arguments n payload kvs Hx' Hv) in H.
  destruct (truthy (get kvs "verified")); [| discriminate].
  rewrite pay_and_record_run in H.
  destruct (_send_tbnb_frame W (DisbursementRequest.wallet_address payload)
              (DEFAULT_PAYOUT_AMOUNT W) (S (S n))) as [_ Hchain].
  destruct (_send_tbnb W _ _ (S (S n))) as [[[e | h] ts] ns];
    unfold outcome, events in *; simpl in *; [discriminate |].
  inversion H; subst. exists payload, kvs, h, ts. repeat split. assumption.
Qed.

(* ================================================================= *)
(** * The specified properties *)

(** C1.  An approval is produced only if the transaction engine read an
    on-chain receipt with success status.  At each layer: the engine
    returns a hash only after reading a receipt with status 1 for it, and
    raises when the receipt it waited for has another status, although the
    hash was obtained at broadcast; the orchestrator returns its approved
    result, and the gateway a tool result not marked as an error, only
    with such a receipt; and when the receipt waited for has another
    status the gateway answers with a server error that carries no
    hash. *)
Theorem C1_approved_only_with_success_receipt : forall W : World,
  (forall w a k h t k',
     _send_tbnb W w a k = (inr h, t, k') ->
     exists tx_hash rc,
       h = to_hex W tx_hash /\
       In (EvWaitForTransactionReceipt tx_hash) t /\
       eth_wait_for_transaction_receipt W tx_hash = inr rc /\
       status rc = 1) /\
  (forall w a k tx_hash rc,
     In (EvWaitForTransactionReceipt tx_hash) (events (_send_tbnb W w a k)) ->
     eth_wait_for_transaction_receipt W tx_hash = inr rc ->
     status rc <> 1 ->
     outcome (_send_tbnb W w a k)
     = inl (Exn RuntimeError "On-chain transfer failed.")) /\
  (forall arguments k result t k',
     process_tbnb_request W arguments k = (inr result, t, k') ->
     exists request_id tx_hash rc verification,
       result = approved request_id (to_hex W tx_hash) verification /\
       In (EvWaitForTransactionReceipt tx_hash) t /\
       eth_wait_for_transaction_receipt W tx_hash = inr rc /\
       status rc = 1) /\
  (forall request k response t k',
     mcp_call_tool W request k = (inr response, t, k') ->
     tool_result_isError response = Some false ->
     exists id request_id tx_hash rc verification,
       response = tool_result_response id
                    (json_dumps W (approved request_id (to_hex W tx_hash) verification))
                    false /\
       In (EvWaitForTransactionReceipt tx_hash) t /\
       eth_wait_for_transaction_receipt W tx_hash = inr rc /\
       status rc = 1) /\
  (forall request k tx_hash rc,
     In (EvWaitForTransactionReceipt tx_hash) (events (mcp_call_tool W request k)) ->
     eth_wait_for_transaction_receipt W tx_hash = inr rc ->
     status rc <> 1 ->
     exists id,
       outcome (mcp_call_tool W request k)
       = inr (error_response id (-32000) "Server error"
                "Payout failed: On-chain transfer failed.")).
Proof.
  intros W. repeat split.
  - intros w a k h t k' H. apply _send_tbnb_inr in H.
    destruct H as (raw & txh & rc & _ & Hwait & Hst & -> & -> & _).
    exists txh, rc. repeat split; try assumption. simpl. tauto.
  - intros w a k txh rc Hin Hwait Hst.
    destruct (_send_tbnb_receipt W w a k txh rc Hin Hwait) as [Ho _].
    rewrite Ho. apply Z.eqb_neq in Hst. now rewrite Hst.
  - apply process_tbnb_request_inr.
  - apply mcp_call_tool_approved.
  - intros request k txh rc Hin Hwait Hst.
    destruct (mcp_call_tool_receipt W request k txh rc Hin Hwait)
      as (id & request_id & verification & Ho).
    exists id. rewrite Ho. apply Z.eqb_neq in Hst. now rewrite Hst.
Qed.

Lemma C1_witness :
  (exists id,
     outcome (mcp_call_tool reverted_world
                (Json (rpc_body (JObj alice_arguments))) 0%nat)
     = inr (error_response id (-32000) "Server error"
              "Payout failed: On-chain transfer failed.")) /\
  (exists tx_hash rc,
     In (EvWaitForTransactionReceipt tx_hash)
        (events (mcp_call_tool happy_world
                   (Json (rpc_body (JObj alice_arguments))) 0%nat)) /\
     eth_wait_for_transaction_receipt happy_world tx_hash = inr rc /\
     status rc = 1).
Proof.
  split.
  - destruct (C1_approved_only_with_success_receipt reverted_world)
      as (_ & _ & _ & _ & H).
    apply (H (Json (rpc_body (JObj alice_arguments))) 0%nat "beef"
             {| status := 0 |}).
    + vm_compute. repeat (first [left; reflexivity | right]).
    + reflexivity.
    + discriminate.
  - destruct (C1_approved_only_with_success_receipt happy_world)
      as (_ & _ & _ & H & _).
    destruct (H (Json (rpc_body (JObj alice_arguments))) 0%nat _ _ _
                eq_refl eq_refl)
      as (id & request_id & txh & rc & verification & _ & Hin & Hwait & Hst).
    exists txh, rc. repeat split; assumption.
Defined.













(** C9, as stated, fails: the authority approves and supplies
    [github_user_id] 0; the transfer succeeds, the field is present in the
    verification result, and no record-payout request is made. *)
Lemma C9_counterexample :
  let run := process_tbnb_request zero_id_world (JObj alice_arguments) 0%nat in
  (exists result,
     outcome run = inr result /\
     json_field "github_user_id" (json_field "verification" (Some result))
     = Some (JInt 0)) /\
  In (EvWaitForTransactionReceipt "beef") (events run) /\
  forall timeout url payload,
    In (EvHttpPost timeout url payload) (events run) -> timeout = 30.
Proof.
  repeat split.
  - eexists. split; reflexivity.
  - vm_compute. repeat (first [left; reflexivity | right]).
  - vm_compute. intros timeout url payload H.
    repeat (destruct H as [H | H]; [try discriminate; now inversion H |]).
    destruct H.
Qed.

(** C9, amended.  When the transfer has succeeded, the record-payout call
    is attempted, with the [github_user_id] of the verification result,
    exactly when that value is true in the Python sense (present, and
    neither null, 0, false nor empty); otherwise it is skipped. *)
Theorem C9_record_payout_iff_truthy_id :
  forall (W : World) arguments n result t n',
    process_tbnb_request W arguments n = (inr result, t, n') ->
    exists ver,
      json_field "verification" (Some result) = Some (JObj ver) /\
      let github_user_id := get ver "github_user_id" in
      (truthy github_user_id = true ->
       In (EvHttpPost 10 (record_payout_url W)
             (JObj [("github_user_id", github_user_id)])) t) /\
      (truthy github_user_id = false ->
       forall url payload, ~ In (EvHttpPost 10 url payload) t).
Proof.
  intros W arguments n result t n' H.
  apply process_tbnb_request_inr_trace in H.
  destruct H as (payload & ver & h & ts & -> & -> & Hchain).
  exists ver. split; [reflexivity |].
  destruct (record_if_present_run W (get ver "github_user_id") (S (S n)))
    as (tr & Hr & _ & Hyes & Hno).
  rewrite Hr. unfold events. simpl. split.
  - intros Ht. destruct (Hyes Ht) as (rest & -> & _).
    do 3 right. apply in_or_app. right. now left.
  - intros Ht url p. rewrite (Hno Ht), app_nil_r.
    intros [Hin | [Hin | [Hin | Hin]]]; try discriminate.
    rewrite Forall_forall in Hchain. apply Hchain in Hin. discriminate.
Qed.

Lemma C9_witness :
  In (EvHttpPost 10 (record_payout_url happy_world)
        (JObj [("github_user_id", JInt 42)]))
     (events (process_tbnb_request happy_world (JObj alice_arguments) 0%nat)).
Proof.
  destruct (C9_record_payout_iff_truthy_id happy_world (JObj alice_arguments)
              0%nat _ _ _ eq_refl) as (ver & Hver & Hyes & _).
  vm_compute in Hver. inversion Hver; subst ver.
  exact (Hyes eq_refl).
Defined.

(** C10.  Any string given for [channel], inside the advertised enum or
    not, is accepted and forwarded unchanged in the verification request;
    when the field is absent, [web] is sent.  The enum is only advertised
    in the tool schema. *)
Theorem C10_channel_forwarded_unchecked :
  forall (W : World) args n w g b c,
    get args "wallet_address" = JStr w -> w <> "" ->
    get args "github_username" = JStr g -> g <> "" ->
    get_default args "builder_id"
      (JStr ("user-" ++ substring 0 8 (hex (uuid4 W n)))) = JStr b ->
    dict_get "channel" args = Some (JStr c) \/
    (dict_get "channel" args = None /\ c = "web") ->
    (exists rest,
       events (process_tbnb_request W (JObj args) n)
       = EvUuid4 BuilderIdDefault
         :: EvHttpPost 30 (VERIFICATION_URL W)
              (JObj [("wallet_address", JStr w);
                     ("github_username", JStr g);
                     ("requester_id", JStr b);
                     ("channel", JStr c)])
         :: rest) /\
    map MCPTool.inputSchema get_available_tools = [issue_tbnb_schema] /\
    json_field "enum"
      (json_field "channel" (json_field "properties" (Some issue_tbnb_schema)))
    = Some (JArr [JStr "discord"; JStr "telegram"; JStr "web"]).
Proof.
  intros W args n w g b c Hw Hw' Hg Hg' Hb Hc.
  split; [| split; reflexivity].
  assert (Hc' : get_default args "channel" (JStr "web") = JStr c).
  { unfold get_default. destruct Hc as [-> | [-> ->]]; reflexivity. }
  rewrite process_tbnb_request_run.
  rewrite (extract_arguments_strings W args n w g c Hw Hw' Hg Hg' Hc' b Hb).
  rewrite verify_and_pay_run. unfold events at 1. simpl.
  destruct (outcome (verify_wallet W _ (S n))) as [e | v];
    [eexists; reflexivity |].
  destruct v; try (eexists; reflexivity).
  destruct (truthy (get kvs "verified")); eexists; reflexivity.
Qed.

Lemma C10_witness :
  exists rest,
    events (process_tbnb_request happy_world
              (JObj (("channel", JStr "carrier-pigeon") :: alice_arguments))
              0%nat)
    = EvUuid4 BuilderIdDefault
      :: EvHttpPost 30 (VERIFICATION_URL happy_world)
           (JObj [("wallet_address", JStr "0xABC123");
                  ("github_username", JStr "alice");
                  ("requester_id", JStr "user-01234567");
                  ("channel", JStr "carrier-pigeon")])
      :: rest.
Proof.
  refine (proj1 (C10_channel_forwarded_unchecked happy_world
            (("channel", JStr "carrier-pigeon") :: alice_arguments) 0%nat
            "0xABC123" "alice" "user-01234567" "carrier-pigeon"
            eq_refl _ eq_refl _ eq_refl (or_introl eq_refl)));
    discriminate.
Defined.





(** C8, as stated, fails on the tools-list endpoint: a body that is not
    JSON is answered with the tool list, not with a parse error. *)
Lemma C8_counterexample :
  let run := mcp_list_tools happy_world (NotJson "Expecting value") 0%nat in
  (exists response,
     outcome run = inr response /\
     protocol_error_code response = None /\
     json_field "tools" (Some (content response)) = Some (tools_json)) /\
  ~ (exists data,
       outcome run = inr (error_response JNull (-32700) "Parse error" data)).
Proof.
  split.
  - eexists. repeat split.
  - intros [data H]. vm_compute in H. discriminate.
Qed.

(** C8, amended.  A body that is not JSON is answered, on the tool-call
    endpoint, with the parse error -32700 whose id is null, without any
    outside call; on the tools-list endpoint it is answered with the bare
    tool list. *)
Theorem C8_unparseable_body :
  forall (W : World) msg n,
    mcp_call_tool W (NotJson msg) n
    = (inr (error_response JNull (-32700) "Parse error" msg), [], n) /\
    mcp_list_tools W (NotJson msg) n
    = (inr {| status_code := 200; content := JObj [("tools", tools_json)] |},
       [], n).
Proof. intros W msg n. split; reflexivity. Qed.

(* ================================================================= *)
(** * Further properties of the code *)

(** ** Legacy REST endpoint *)

(** The endpoint, stage by stage. *)
Lemma request_tbnb_run W p n :
  let asked := EvHttpPost 30 (VERIFICATION_URL W) (verify_payload p) in
  let sent := _send_tbnb W (DisbursementRequest.wallet_address p)
                (DEFAULT_PAYOUT_AMOUNT W) (S n) in
  request_tbnb W p n
  = match outcome (verify_wallet W p n) with
    | inl e => (inl e, [asked], n)
    | inr (JObj ver) =>
        if truthy (get ver "verified") then
          match outcome sent with
          | inl e =>
              (inr (HTTPException 500 (str e)),
               asked :: EvUuid4 RequestId :: events sent, S n)
          | inr h =>
              (inr (Returned
                      (DisbursementResponse.mk (uuid_str (uuid4 W n)) "approved"
                         "Disbursement submitted to BSC testnet" (Some h) ver)),
               asked :: EvUuid4 RequestId
               :: (events sent
                   ++ events (record_if_present W (get ver "github_user_id")
                                (S n)))%list,
               S n)
          end
        else
          (inr (HTTPException 403
                  ("Verification failed: "
                   ++ py_str W (get_default ver "reason"
                                  (JStr "Unknown verification failure")))),
           [asked], n)
    | inr v =>
        (inl (Exn AttributeError
                ("'" ++ type_name v ++ "' object has no attribute 'get'")),
         [asked], n)
    end.
Proof.
  intros asked sent. unfold request_tbnb. unfold bind at 1.
  rewrite verify_wallet_run. unfold outcome at 1. cbv [fst].
  destruct (http_post W (VERIFICATION_URL W) (verify_payload p))
    as [msg | code body]; [reflexivity |].
  destruct (is_success code); [| reflexivity].
  destruct body as [msg | v]; [reflexivity |].
  destruct v; try reflexivity.
  unfold attr_get. unfold bind at 1. unfold ret at 1. cbv beta iota.
  destruct (truthy (get kvs "verified")); cbv [negb]; [| reflexivity].
  destruct (_send_tbnb_frame W (DisbursementRequest.wallet_address p)
              (DEFAULT_PAYOUT_AMOUNT W) (S n)) as [Hn _].
  destruct (record_if_present_run W (get kvs "github_user_id") (S n))
    as (tr & Hr & _).
  fold sent in Hn. unfold initiate_payout. fold sent.
  unfold bind at 1. unfold fresh_uuid at 1. cbv beta iota.
  unfold bind at 1.
  destruct sent as [[[e | h] ts] ns] eqn:Hs; simpl in Hn; subst ns.
  - rewrite (try_except_inl _ _ _ e ts (S n)); [| apply bind_inl; exact Hs].
    run. now rewrite !app_nil_r.
  - rewrite (try_except_inr _ _ _ (inr h) (ts ++ tr)%list (S n)).
    + rewrite Hr. run. now rewrite !app_nil_r.
    + rewrite (bind_inr _ _ _ h ts (S n) Hs).
      unfold bind at 1 2 3. rewrite Hr. run. now rewrite app_nil_r.
Qed.

(** X1.  On the legacy endpoint a verdict that is not true raises the HTTP
    error 403 with the authority's reason, after the verification request
    alone: no request id is minted and no chain call is made. *)
Theorem request_tbnb_denied_is_403 :
  forall (W : World) payload n code ver,
    http_post W (VERIFICATION_URL W) (verify_payload payload)
    = Reply code (Json (JObj ver)) ->
    is_success code = true ->
    truthy (get ver "verified") = false ->
    request_tbnb W payload n
    = (inr (HTTPException 403
              ("Verification failed: "
               ++ py_str W (get_default ver "reason"
                              (JStr "Unknown verification failure")))),
       [EvHttpPost 30 (VERIFICATION_URL W) (verify_payload payload)], n).
Proof.
  intros W payload n code ver Hpost Hcode Hver.
  rewrite request_tbnb_run,
    (verify_wallet_reply W payload n code (JObj ver) Hpost Hcode), Hver.
  reflexivity.
Qed.

Lemma request_tbnb_denied_is_403_witness :
  request_tbnb denied_world
    (DisbursementRequest.mk "b" "0xABC123" "alice" "web") 0%nat
  = (inr (HTTPException 403 "Verification failed: account too new"),
     [EvHttpPost 30 "http://localhost:8080/verify"
        (JObj [("wallet_address", JStr "0xABC123");
               ("github_username", JStr "alice");
               ("requester_id", JStr "b");
               ("channel", JStr "web")])],
     0%nat).
Proof.
  exact (request_tbnb_denied_is_403 denied_world
           (DisbursementRequest.mk "b" "0xABC123" "alice" "web") 0%nat 200
           [("verified", JBool false); ("reason", JStr "account too new")]
           eq_refl eq_refl eq_refl).
Defined.

(** X2.  On the legacy endpoint, once the user is verified, every exception
    of the payout is turned into the HTTP error 500 whose detail is the
    exception's own text, without the prefix the tool path adds; the tool
    path, on the same payload, raises the RuntimeError with that prefix. *)
Theorem request_tbnb_payout_failure_is_500 :
  forall (W : World) payload n code ver e t k,
    http_post W (VERIFICATION_URL W) (verify_payload payload)
    = Reply code (Json (JObj ver)) ->
    is_success code = true ->
    truthy (get ver "verified") = true ->
    _send_tbnb W (DisbursementRequest.wallet_address payload)
      (DEFAULT_PAYOUT_AMOUNT W) (S n) = (inl e, t, k) ->
    outcome (request_tbnb W payload n) = inr (HTTPException 500 (str e)) /\
    outcome (verify_and_pay W payload n)
    = inl (Exn RuntimeError ("Payout failed: " ++ str e)).
Proof.
  intros W payload n code ver e t k Hpost Hcode Hver Hs.
  rewrite request_tbnb_run, verify_and_pay_run,
    (verify_wallet_reply W payload n code (JObj ver) Hpost Hcode), Hver,
    pay_and_record_run, Hs.
  split; reflexivity.
Qed.

Lemma request_tbnb_payout_failure_is_500_witness :
  outcome (request_tbnb reverted_world
             (DisbursementRequest.mk "b" "0xABC123" "alice" "web") 0%nat)
  = inr (HTTPException 500 "On-chain transfer failed.").
Proof.
  exact (proj1 (request_tbnb_payout_failure_is_500 reverted_world
           (DisbursementRequest.mk "b" "0xABC123" "alice" "web") 0%nat 200
           [("verified", JBool true); ("github_user_id", JInt 42)]
           (Exn RuntimeError "On-chain transfer failed.") _ _
           eq_refl eq_refl eq_refl eq_refl)).
Defined.

(** X3.  The legacy endpoint and the tool path make the same outside calls
    in the same order on the same payload, and one approves exactly when
    the other does, with the same request id, transaction hash and
    verification result. *)
Theorem request_tbnb_agrees_with_tool_path :
  forall (W : World) payload n,
    events (request_tbnb W payload n) = events (verify_and_pay W payload n) /\
    snd (request_tbnb W payload n) = snd (verify_and_pay W payload n) /\
    (forall request_id h ver,
       outcome (verify_and_pay W payload n)
       = inr (approved request_id h (JObj ver))
       <-> outcome (request_tbnb W payload n)
           = inr (Returned
                    (DisbursementResponse.mk request_id "approved"
                       "Disbursement submitted to BSC testnet" (Some h) ver))) /\
    ((exists result, outcome (verify_and_pay W payload n) = inr result)
     <-> (exists response,
            outcome (request_tbnb W payload n) = inr (Returned response))).
Proof.
  intros W payload n.
  rewrite request_tbnb_run, verify_and_pay_run.
  destruct (outcome (verify_wallet W payload n)) as [e | v].
  { repeat split; unfold outcome; simpl; try discriminate;
      intros [x Hx]; discriminate. }
  destruct v;
    try (repeat split; unfold outcome; simpl; try discriminate;
         intros [x Hx]; discriminate).
  destruct (truthy (get kvs "verified")).
  2:{ repeat split; unfold outcome; simpl; try discriminate;
        intros [x Hx]; discriminate. }
  rewrite pay_and_record_run.
  destruct (outcome (_send_tbnb W _ _ (S n))) as [e | h];
    unfold outcome, events; simpl.
  { repeat split; try discriminate; intros [x Hx]; discriminate. }
  split; [reflexivity |]. split; [reflexivity |]. split.
  - intros request_id h' ver. unfold approved. split; intros H.
    + inversion H; subst. reflexivity.
    + inversion H; subst. reflexivity.
  - split; intros _; eexists; reflexivity.
Qed.

(* ----------------------------------------------------------------- *)
(** ** The shape of a run *)

(** The engine's calls are an initial part of the same four, in the same
    order. *)
Lemma _send_tbnb_prefix W w a n :
  exists raw h k,
    events (_send_tbnb W w a n)
    = firstn k [EvGetTransactionCount (treasury_address W); EvGasPrice;
                EvSendRawTransaction raw; EvWaitForTransactionReceipt h].
Proof.
  unfold _send_tbnb. run.
  destruct (to_checksum_address W w) as [e | ck]; simpl;
    [exists "", "", 0%nat; reflexivity |].
  destruct (to_wei W a) as [e | v]; simpl;
    [exists "", "", 0%nat; reflexivity |].
  destruct (v <=? 0); simpl; [exists "", "", 0%nat; reflexivity |].
  destruct (eth_get_transaction_count W (treasury_address W)) as [e | nonce];
    simpl; [exists "", "", 1%nat; reflexivity |].
  destruct (eth_gas_price W) as [e | gp]; simpl;
    [exists "", "", 2%nat; reflexivity |].
  destruct (sign_transaction W _) as [e | raw]; simpl;
    [exists "", "", 2%nat; reflexivity |].
  destruct (eth_send_raw_transaction W raw) as [e | txh]; simpl;
    [exists raw, "", 3%nat; reflexivity |].
  destruct (eth_wait_for_transaction_receipt W txh) as [e | rc]; simpl;
    [exists raw, txh, 4%nat; reflexivity |].
  destruct (status rc =? 1); exists raw, txh, 4%nat; reflexivity.
Qed.

(** What a broadcast carries, and what follows it. *)
Lemma _send_tbnb_broadcast W w a n raw :
  In (EvSendRawTransaction raw) (events (_send_tbnb W w a n)) ->
  exists checksum_address value_wei nonce gas_price,
    to_checksum_address W w = inr checksum_address /\
    to_wei W a = inr value_wei /\
    0 < value_wei /\
    eth_get_transaction_count W (treasury_address W) = inr nonce /\
    eth_gas_price W = inr gas_price /\
    sign_transaction W
      {| tx_to := checksum_address; tx_value := value_wei; tx_nonce := nonce;
         tx_gas := PAYOUT_GAS_LIMIT W; tx_gasPrice := gas_price;
         tx_chainId := CHAIN_ID W |} = inr raw /\
    outcome (_send_tbnb W w a n)
    = match eth_send_raw_transaction W raw with
      | inl e => inl e
      | inr h =>
          match eth_wait_for_transaction_receipt W h with
          | inl e => inl e
          | inr rc =>
              if status rc =? 1 then inr (to_hex W h)
              else inl (Exn RuntimeError "On-chain transfer failed.")
          end
      end.
Proof.
  unfold _send_tbnb. run.
  destruct (to_checksum_address W w) as [e | ck]; simpl; [tauto |].
  destruct (to_wei W a) as [e | v]; simpl; [tauto |].
  destruct (v <=? 0) eqn:Hv; simpl; [tauto |].
  apply Z.leb_gt in Hv.
  destruct (eth_get_transaction_count W (treasury_address W)) as [e | nonce];
    simpl; [intuition discriminate |].
  destruct (eth_gas_price W) as [e | gp]; simpl; [intuition discriminate |].
  destruct (sign_transaction W _) as [e | raw'] eqn:Hsign; simpl;
    [intuition discriminate |].
  destruct (eth_send_raw_transaction W raw') as [e | txh] eqn:Hsend; simpl.
  - intros [H | [H | [H | []]]]; try discriminate.
    inversion H; subst raw'.
    exists ck, v, nonce, gp. rewrite Hsend. repeat split; assumption.
  - destruct (eth_wait_for_transaction_receipt W txh) as [e | rc] eqn:Hwait;
      simpl.
    + intros [H | [H | [H | [H | []]]]]; try discriminate.
      inversion H; subst raw'.
      exists ck, v, nonce, gp. rewrite Hsend, Hwait. repeat split; assumption.
    + destruct (status rc =? 1) eqn:Hst; simpl;
        (intros [H | [H | [H | [H | []]]]]; try discriminate;
         inversion H; subst raw';
         exists ck, v, nonce, gp; rewrite Hsend, Hwait, Hst;
         repeat split; assumption).
Qed.

(** The bookkeeping step makes one request and, when it fails, prints one
    line. *)
Lemma record_if_present_shape W g n :
  let asked := EvHttpPost 10 (record_payout_url W)
                 (JObj [("github_user_id", g)]) in
  events (record_if_present W g n) = [] \/
  events (record_if_present W g n) = [asked] \/
  exists line, events (record_if_present W g n) = [asked; EvPrint line].
Proof.
  unfold record_if_present, record_payout, post, raise_for_status.
  destruct (truthy g); run; [| now left].
  destruct (http_post W _ _) as [msg | code body]; simpl.
  - right; right. eexists. reflexivity.
  - destruct (is_success code); simpl.
    + right; left. reflexivity.
    + right; right. eexists. reflexivity.
Qed.

Lemma verify_wallet_inr W payload n v :
  outcome (verify_wallet W payload n) = inr v ->
  exists code,
    http_post W (VERIFICATION_URL W) (verify_payload payload)
    = Reply code (Json v) /\
    is_success code = true.
Proof.
  rewrite verify_wallet_run. unfold outcome. simpl.
  destruct (http_post W _ _) as [msg | code body]; [discriminate |].
  destruct (is_success code) eqn:Hc; [| discriminate].
  destruct body as [msg | v']; [discriminate |].
  intros H. inversion H; subst. exists code. split; [reflexivity | exact Hc].
Qed.

(** Every run of the orchestrator has one of four shapes: the arguments
    have no [get]; the payload is refused; the verdict is missing or not
    true; or the user is verified and the payout stage runs. *)
Lemma process_tbnb_request_shape W arguments n :
  let r := process_tbnb_request W arguments n in
  (exists e, r = (inl e, [], n)) \/
  (exists e, r = (inl e, [EvUuid4 BuilderIdDefault], S n)) \/
  (exists payload e,
     outcome (extract_arguments W arguments n) = inr payload /\
     r = (inl e,
          [EvUuid4 BuilderIdDefault;
           EvHttpPost 30 (VERIFICATION_URL W) (verify_payload payload)],
          S n)) \/
  (exists payload code ver,
     outcome (extract_arguments W arguments n) = inr payload /\
     http_post W (VERIFICATION_URL W) (verify_payload payload)
     = Reply code (Json (JObj ver)) /\
     is_success code = true /\
     truthy (get ver "verified") = true /\
     let sent := _send_tbnb W (DisbursementRequest.wallet_address payload)
                   (DEFAULT_PAYOUT_AMOUNT W) (S (S n)) in
     r = match outcome sent with
         | inl e =>
             (inl (Exn RuntimeError ("Payout failed: " ++ str e)),
              EvUuid4 BuilderIdDefault
              :: EvHttpPost 30 (VERIFICATION_URL W) (verify_payload payload)
              :: EvUuid4 RequestId :: events sent,
              S (S n))
         | inr h =>
             (inr (approved (uuid_str (uuid4 W (S n))) h (JObj ver)),
              EvUuid4 BuilderIdDefault
              :: EvHttpPost 30 (VERIFICATION_URL W) (verify_payload payload)
              :: EvUuid4 RequestId
              :: (events sent
                  ++ events (record_if_present W (get ver "github_user_id")
                               (S (S n))))%list,
              S (S n))
         end).
Proof.
  intros r. subst r.
  destruct (extract_arguments_frame W arguments n) as [[e He] | [x Hx]].
  { left. exists e. now rewrite process_tbnb_request_run, He. }
  destruct x as [e | payload].
  { right; left. exists e. now rewrite process_tbnb_request_run, Hx. }
  assert (Hx' : outcome (extract_arguments W arguments n) = inr payload)
    by now rewrite Hx.
  destruct (outcome (verify_wallet W payload (S n))) as [e | v] eqn:Hv.
  { right; right; left. exists payload, e. split; [exact Hx' |].
    now apply process_tbnb_request_unverified. }
  destruct v;
    try (right; right; left; exists payload; eexists; split; [exact Hx' |];
         rewrite process_tbnb_request_run, Hx, verify_and_pay_run, Hv;
         reflexivity).
  pose proof (process_tbnb_request_verdict W arguments n payload kvs Hx' Hv)
    as Hp.
  destruct (truthy (get kvs "verified")) eqn:Hver.
  - right; right; right.
    destruct (verify_wallet_inr W payload (S n) (JObj kvs) Hv) as (code & Hpost & Hc).
    exists payload, code, kvs.
    split; [exact Hx' |]. split; [exact Hpost |]. split; [exact Hc |].
    split; [exact Hver |]. intros sent. subst sent.
    rewrite Hp, pay_and_record_run.
    destruct (outcome (_send_tbnb W _ _ (S (S n)))); reflexivity.
  - right; right; left. exists payload. eexists. split; [exact Hx' |].
    exact Hp.
Qed.

(** Every run of the tool-call endpoint either answers without running
    the tool, having made no outside call but perhaps the uuid of the
    default id, or runs the orchestrator after that. *)
Lemma mcp_call_tool_shape W request n :
  let r := mcp_call_tool W request n in
  (exists response t k,
     r = (inr response, t, k) /\
     (t = [] \/ t = [EvUuid4 EnvelopeIdDefault]) /\
     exists id code message data,
       response = error_response id code message data) \/
  (exists t0 arguments request_id k,
     (t0 = [] \/ t0 = [EvUuid4 EnvelopeIdDefault]) /\
     r = (outcome (call_issue_tbnb W arguments request_id k),
          (t0 ++ events (process_tbnb_request W arguments k))%list,
          snd (process_tbnb_request W arguments k))).
Proof.
  intros r. subst r.
  destruct request as [msg | body].
  { left. do 3 eexists. split; [reflexivity |]. split; [now left |].
    do 4 eexists. reflexivity. }
  rewrite mcp_call_tool_run.
  assert (Hexec : forall tn a rid k t0,
    (t0 = [] \/ t0 = [EvUuid4 EnvelopeIdDefault]) ->
    let r := (outcome (execute_tool W tn a rid k),
              (t0 ++ events (execute_tool W tn a rid k))%list,
              snd (execute_tool W tn a rid k)) in
    (exists response t k',
       r = (inr response, t, k') /\
       (t = [] \/ t = [EvUuid4 EnvelopeIdDefault]) /\
       exists id code message data,
         response = error_response id code message data) \/
    (exists t0' arguments request_id k',
       (t0' = [] \/ t0' = [EvUuid4 EnvelopeIdDefault]) /\
       r = (outcome (call_issue_tbnb W arguments request_id k'),
            (t0' ++ events (process_tbnb_request W arguments k'))%list,
            snd (process_tbnb_request W arguments k')))).
  { intros tn a rid k t0 Ht0 r. subst r. unfold execute_tool.
    destruct (negb (truthy tn)).
    { left. do 3 eexists. split; [reflexivity |]. unfold events. simpl.
      rewrite app_nil_r. split; [exact Ht0 |]. do 4 eexists. reflexivity. }
    destruct (eq_str tn "issue_tbnb").
    - right. exists t0, a, rid, k. split; [exact Ht0 |].
      rewrite call_issue_tbnb_run. reflexivity.
    - left. do 3 eexists. split; [reflexivity |]. unfold events. simpl.
      rewrite app_nil_r. split; [exact Ht0 |]. do 4 eexists. reflexivity. }
  destruct (decode_envelope_frame W body n)
    as [[e H] | [(id & c & m & d & H) | [(tn & a & rid & H) | (tn & a & rid & H)]]];
    rewrite H.
  - left. do 3 eexists. split; [reflexivity |]. split; [now left |].
    do 4 eexists. reflexivity.
  - left. do 3 eexists. split; [reflexivity |]. split; [now left |].
    do 4 eexists. reflexivity.
  - apply Hexec. now left.
  - apply Hexec. now right.
Qed.

(** A chain call is made only by the payout stage of a verified
    request, and the engine's outcome is then the answer. *)
Lemma mcp_call_tool_chain_call W request n ev :
  In ev (events (mcp_call_tool W request n)) ->
  is_chain ev = true ->
  exists t0 arguments request_id k payload code ver tr,
    (t0 = [] \/ t0 = [EvUuid4 EnvelopeIdDefault]) /\
    outcome (extract_arguments W arguments k) = inr payload /\
    http_post W (VERIFICATION_URL W) (verify_payload payload)
    = Reply code (Json (JObj ver)) /\
    is_success code = true /\
    truthy (get ver "verified") = true /\
    let sent := _send_tbnb W (DisbursementRequest.wallet_address payload)
                  (DEFAULT_PAYOUT_AMOUNT W) (S (S k)) in
    In ev (events sent) /\
    events (mcp_call_tool W request n)
    = (t0 ++ EvUuid4 BuilderIdDefault
          :: EvHttpPost 30 (VERIFICATION_URL W) (verify_payload payload)
          :: EvUuid4 RequestId :: events sent ++ tr)%list /\
    Forall (fun ev' => is_chain ev' = false) tr /\
    outcome (mcp_call_tool W request n)
    = inr match outcome sent with
          | inl e =>
              error_response request_id (-32000) "Server error"
                ("Payout failed: " ++ str e)
          | inr h =>
              tool_result_response request_id
                (json_dumps W (approved (uuid_str (uuid4 W (S k))) h (JObj ver)))
                false
          end.
Proof.
  intros Hin Hchain.
  destruct (mcp_call_tool_shape W request n)
    as [(resp & t & k & Hr & Ht & _) | (t0 & a & rid & k & Ht0 & Hr)].
  { rewrite Hr in Hin. unfold events in Hin. simpl in Hin.
    destruct Ht as [-> | ->]; simpl in Hin; [tauto |].
    destruct Hin as [<- | []]. discriminate. }
  assert (Hin' : In ev (events (process_tbnb_request W a k))).
  { rewrite Hr in Hin. unfold events at 1 in Hin. simpl in Hin.
    apply in_app_or in Hin. destruct Hin as [Hin | Hin]; [| exact Hin].
    destruct Ht0 as [-> | ->]; simpl in Hin; [tauto |].
    destruct Hin as [<- | []]. discriminate. }
  destruct (process_tbnb_request_shape W a k)
    as [[e Hp] | [[e Hp] | [(payload & e & _ & Hp)
                           | (payload & code & ver & Hx & Hpost & Hc & Hver & Hp)]]];
    try (rewrite Hp in Hin'; unfold events in Hin'; simpl in Hin';
         repeat (destruct Hin' as [<- | Hin']; [discriminate |]);
         destruct Hin').
  cbv zeta in Hp.
  destruct (record_if_present_run W (get ver "github_user_id") (S (S k)))
    as (trr & Hrr & Hnochain & _).
  exists t0, a, rid, k, payload, code, ver.
  destruct (_send_tbnb W (DisbursementRequest.wallet_address payload)
              (DEFAULT_PAYOUT_AMOUNT W) (S (S k))) as [[[e | h] ts] ks] eqn:Hs;
    unfold outcome, events in Hp; simpl in Hp.
  - exists []. repeat split; try assumption.
    + rewrite Hp in Hin'. unfold events in Hin' |- *. simpl in Hin' |- *.
      destruct Hin' as [<- | [<- | [<- | Hin']]]; try discriminate. exact Hin'.
    + rewrite Hr, Hp. unfold events. simpl. now rewrite app_nil_r.
    + constructor.
    + rewrite Hr, call_issue_tbnb_run, Hp. reflexivity.
  - exists trr. repeat split; try assumption.
    + rewrite Hp, Hrr in Hin'. unfold events in Hin' |- *. simpl in Hin' |- *.
      destruct Hin' as [<- | [<- | [<- | Hin']]]; try discriminate.
      apply in_app_or in Hin'. destruct Hin' as [Hin' | Hin']; [exact Hin' |].
      rewrite Forall_forall in Hnochain. apply Hnochain in Hin'. congruence.
    + rewrite Hr, Hp, Hrr. unfold events. simpl. reflexivity.
    + rewrite Hr, call_issue_tbnb_run, Hp. reflexivity.
Qed.

(* ----------------------------------------------------------------- *)
(** ** What a request can and cannot do *)

(** X4.  No chain call without a verdict: whenever a request makes a chain
    call (nonce, gas price, broadcast or receipt), the verification
    authority had answered 2xx with an object whose [verified] is true, and
    the verification request comes before the call and is the first
    network call of the request. *)
Theorem chain_call_only_after_verified :
  forall (W : World) request n ev,
    In ev (events (mcp_call_tool W request n)) ->
    is_chain ev = true ->
    exists payload code ver t_before t_after,
      http_post W (VERIFICATION_URL W) (verify_payload payload)
      = Reply code (Json (JObj ver)) /\
      is_success code = true /\
      truthy (get ver "verified") = true /\
      events (mcp_call_tool W request n)
      = (t_before
         ++ EvHttpPost 30 (VERIFICATION_URL W) (verify_payload payload)
         :: t_after)%list /\
      network_calls t_before = [] /\
      In ev t_after.
Proof.
  intros W request n ev Hin Hchain.
  destruct (mcp_call_tool_chain_call W request n ev Hin Hchain)
    as (t0 & a & rid & k & payload & code & ver & tr & Ht0 & _ & Hpost & Hc
        & Hver & Hsent & Hev & _ & _).
  exists payload, code, ver, (t0 ++ [EvUuid4 BuilderIdDefault])%list,
    (EvUuid4 RequestId
     :: events (_send_tbnb W (DisbursementRequest.wallet_address payload)
                  (DEFAULT_PAYOUT_AMOUNT W) (S (S k))) ++ tr)%list.
  split; [exact Hpost |]. split; [exact Hc |]. split; [exact Hver |].
  split; [| split].
  - rewrite Hev, <- app_assoc. reflexivity.
  - destruct Ht0 as [-> | ->]; reflexivity.
  - right. apply in_or_app. now left.
Qed.

Lemma chain_call_only_after_verified_witness :
  exists payload code ver,
    http_post happy_world (VERIFICATION_URL happy_world) (verify_payload payload)
    = Reply code (Json (JObj ver)) /\
    truthy (get ver "verified") = true.
Proof.
  destruct (chain_call_only_after_verified happy_world
              (Json (rpc_body (JObj alice_arguments))) 0%nat
              (EvSendRawTransaction "signed"))
    as (payload & code & ver & _ & _ & Hpost & _ & Hver & _).
  - vm_compute. repeat (first [left; reflexivity | right]).
  - reflexivity.
  - exists payload, code, ver. split; assumption.
Defined.

(** X5.  What is broadcast: every raw transaction a request broadcasts is
    the treasury's signature of a transfer to the checksummed wallet
    address of the verification request, of the configured amount in wei
    (strictly positive), with the configured gas limit and chain id and
    the nonce and gas price read from the chain. *)
Theorem broadcast_is_the_signed_transfer :
  forall (W : World) request n raw,
    In (EvSendRawTransaction raw) (events (mcp_call_tool W request n)) ->
    exists payload checksum_address value_wei nonce gas_price,
      In (EvHttpPost 30 (VERIFICATION_URL W) (verify_payload payload))
         (events (mcp_call_tool W request n)) /\
      to_checksum_address W (DisbursementRequest.wallet_address payload)
      = inr checksum_address /\
      to_wei W (DEFAULT_PAYOUT_AMOUNT W) = inr value_wei /\
      0 < value_wei /\
      eth_get_transaction_count W (treasury_address W) = inr nonce /\
      eth_gas_price W = inr gas_price /\
      sign_transaction W
        {| tx_to := checksum_address; tx_value := value_wei; tx_nonce := nonce;
           tx_gas := PAYOUT_GAS_LIMIT W; tx_gasPrice := gas_price;
           tx_chainId := CHAIN_ID W |} = inr raw.
Proof.
  intros W request n raw Hin.
  destruct (mcp_call_tool_chain_call W request n _ Hin eq_refl)
    as (t0 & a & rid & k & payload & code & ver & tr & _ & _ & _ & _ & _
        & Hsent & Hev & _ & _).
  destruct (_send_tbnb_broadcast W _ _ _ raw Hsent)
    as (ck & v & nonce & gp & H1 & H2 & H3 & H4 & H5 & H6 & _).
  exists payload, ck, v, nonce, gp. repeat split; try assumption.
  rewrite Hev. apply in_or_app. right. right. now left.
Qed.

Lemma broadcast_is_the_signed_transfer_witness :
  exists payload checksum_address value_wei,
    DisbursementRequest.wallet_address payload = "0xABC123" /\
    to_checksum_address happy_world (DisbursementRequest.wallet_address payload)
    = inr checksum_address /\
    to_wei happy_world (DEFAULT_PAYOUT_AMOUNT happy_world) = inr value_wei /\
    0 < value_wei.
Proof.
  destruct (broadcast_is_the_signed_transfer happy_world
              (Json (rpc_body (JObj alice_arguments))) 0%nat "signed")
    as (payload & ck & v & nonce & gp & Hpost & H1 & H2 & H3 & _).
  - vm_compute. repeat (first [left; reflexivity | right]).
  - exists payload, ck, v. repeat split; try assumption.
    vm_compute in Hpost.
    destruct Hpost as [H | [H | [H | [H | [H | [H | [H | [H | []]]]]]]]];
      try discriminate.
    destruct payload. simpl in *. now inversion H.
Defined.

(** X6.  At most once: one request sends at most one verification
    request, mints at most one request id, broadcasts at most one
    transaction and sends at most one record-payout request. *)
Theorem at_most_one_of_each_call :
  forall (W : World) request n,
    let t := events (mcp_call_tool W request n) in
    (length (filter (is_post 30) t) <= 1)%nat /\
    (length (filter mints_request_id t) <= 1)%nat /\
    (length (filter is_broadcast t) <= 1)%nat /\
    (length (filter (is_post 10) t) <= 1)%nat.
Proof.
  intros W request n t. subst t.
  destruct (mcp_call_tool_shape W request n)
    as [(resp & t & k & Hr & Ht & _) | (t0 & a & rid & k & Ht0 & Hr)].
  { rewrite Hr. unfold events. simpl.
    destruct Ht as [-> | ->]; simpl; repeat split; lia. }
  assert (Hev : events (mcp_call_tool W request n)
                = (t0 ++ events (process_tbnb_request W a k))%list)
    by (rewrite Hr; reflexivity).
  rewrite Hev. clear Hev Hr.
  assert (H0 : forall f, f (EvUuid4 EnvelopeIdDefault) = false ->
                filter f t0 = []).
  { intros f Hf. destruct Ht0 as [-> | ->]; simpl; [reflexivity |].
    now rewrite Hf. }
  rewrite !filter_app, !(H0 _ eq_refl). cbn [app].
  destruct (process_tbnb_request_shape W a k)
    as [[e Hp] | [[e Hp] | [(payload & e & _ & Hp)
                           | (payload & code & ver & _ & _ & _ & _ & Hp)]]].
  1-3: rewrite Hp; unfold events; simpl; repeat split; lia.
  cbv zeta in Hp.
  destruct (_send_tbnb_prefix W (DisbursementRequest.wallet_address payload)
              (DEFAULT_PAYOUT_AMOUNT W) (S (S k))) as (raw & h & j & Hj).
  destruct (record_if_present_shape W (get ver "github_user_id") (S (S k)))
    as [Hrec | [Hrec | [line Hrec]]];
    destruct (outcome (_send_tbnb W _ _ (S (S k))));
    rewrite ?Hrec, Hj in Hp; rewrite Hp; unfold events; cbn [fst snd];
    destruct j as [| [| [| [| [| j]]]]]; simpl; repeat split; lia.
Qed.













(* ----------------------------------------------------------------- *)
(** ** The envelope of the answers *)


Lemma execute_tool_id W tool_name arguments request_id n response :
  outcome (execute_tool W tool_name arguments request_id n) = inr response ->
  response_id response = Some request_id /\
  status_code response = 200 /\
  json_field "jsonrpc" (Some (content response)) = Some (JStr "2.0") /\
  (protocol_error_code response <> None \/
   tool_result_isError response <> None).
Proof.
  unfold execute_tool.
  destruct (negb (truthy tool_name)).
  { intros H. inversion H; subst. repeat split. left. discriminate. }
  destruct (eq_str tool_name "issue_tbnb").
  2:{ intros H. inversion H; subst. repeat split. left. discriminate. }
  rewrite call_issue_tbnb_run. unfold outcome at 1. simpl.
  destruct (outcome (process_tbnb_request W arguments n)) as [e | result].
  - destruct (is_ValueError e); intros H; inversion H; subst; repeat split;
      [right | left]; discriminate.
  - intros H; inversion H; subst. repeat split. right. discriminate.
Qed.

(** X13.  The tool-call endpoint never raises: whatever the request and
    whatever the outside parties do, it answers with HTTP status 200 and a
    JSON-RPC 2.0 envelope that holds either an error object or a tool
    result. *)
Theorem mcp_call_tool_always_answers_200 :
  forall (W : World) request n,
    exists response,
      outcome (mcp_call_tool W request n) = inr response /\
      status_code response = 200 /\
      json_field "jsonrpc" (Some (content response)) = Some (JStr "2.0") /\
      (protocol_error_code response <> None \/
       tool_result_isError response <> None).
Proof.
  intros W request n.
  destruct request as [msg | body].
  { eexists. split; [reflexivity |]. repeat split. left. discriminate. }
  rewrite mcp_call_tool_run.
  destruct (decode_envelope_frame W body n)
    as [[e H] | [(id & c & m & d & H) | [(tn & a & rid & H) | (tn & a & rid & H)]]];
    rewrite H.
  - eexists. split; [reflexivity |]. repeat split. left. discriminate.
  - eexists. split; [reflexivity |]. repeat split. left. discriminate.
  - destruct (execute_tool_total W tn a rid n) as [resp Hresp].
    exists resp. split; [exact Hresp |].
    now destruct (execute_tool_id W tn a rid n resp Hresp) as (_ & ? & ? & ?).
  - destruct (execute_tool_total W tn a rid (S n)) as [resp Hresp].
    exists resp. split; [exact Hresp |].
    now destruct (execute_tool_id W tn a rid (S n) resp Hresp) as (_ & ? & ? & ?).
Qed.









(* ----------------------------------------------------------------- *)
(** ** The record-payout address *)

Lemma length_append (a b : string) :
  String.length (a ++ b) = (String.length a + String.length b)%nat.
Proof. induction a as [| c a IH]; simpl; [reflexivity | now rewrite IH]. Qed.

Lemma rstrip_cons chars c rest :
  rstrip chars (String c rest)
  = match rstrip chars rest with
    | EmptyString => if mem_ascii c chars then EmptyString else String c EmptyString
    | kept => String c kept
    end.
Proof. reflexivity. Qed.

(** A suffix made of characters to strip goes away entirely. *)
Lemma rstrip_suffix chars base suffix :
  rstrip chars suffix = EmptyString ->
  rstrip chars (base ++ suffix) = rstrip chars base.
Proof.
  intros H. induction base as [| c base IH]; [exact H |].
  change (String c base ++ suffix) with (String c (base ++ suffix)).
  now rewrite !rstrip_cons, IH.
Qed.

Lemma rstrip_clear chars s :
  ends_clear_of chars s = true -> rstrip chars s = s.
Proof.
  induction s as [| c s IH]; [reflexivity |].
  intros H. rewrite rstrip_cons. destruct s as [| a s].
  - unfold ends_clear_of in H. simpl in H. simpl.
    destruct (mem_ascii c chars); [discriminate | reflexivity].
  - rewrite IH; [reflexivity | exact H].
Qed.

Lemma rstrip_shorter chars s :
  ends_clear_of chars s = false ->
  (String.length (rstrip chars s) < String.length s)%nat.
Proof.
  induction s as [| c s IH]; [discriminate |].
  intros H. rewrite rstrip_cons. destruct s as [| a s].
  - unfold ends_clear_of in H. simpl in H. simpl.
    destruct (mem_ascii c chars); [simpl; lia | discriminate].
  - specialize (IH H).
    destruct (rstrip chars (String a s)) as [| k kept].
    + destruct (mem_ascii c chars); simpl; lia.
    + simpl in *. lia.
Qed.

(** X18.  When the verification address is [base] followed by "/verify",
    the record-payout address is [base] followed by "/record-payout"
    exactly when [base] does not end with one of the characters / v e r i
    f y: [rstrip] removes a set of characters, not a suffix, and eats into
    a base that ends with one of them. *)
Theorem record_payout_url_iff_base_clear :
  forall (W : World) base,
    VERIFICATION_URL W = base ++ "/verify" ->
    (record_payout_url W = base ++ "/record-payout"
     <-> ends_clear_of "/verify" base = true).
Proof.
  intros W base Hurl. unfold record_payout_url. rewrite Hurl.
  rewrite (rstrip_suffix "/verify" base "/verify" eq_refl). split.
  - intros H. destruct (ends_clear_of "/verify" base) eqn:Hc; [reflexivity |].
    apply rstrip_shorter in Hc.
    apply (f_equal String.length) in H. rewrite !length_append in H. lia.
  - intros Hc. now rewrite rstrip_clear.
Qed.

Lemma record_payout_url_iff_base_clear_witness :
  record_payout_url happy_world = "http://localhost:8080" ++ "/record-payout"
  <-> ends_clear_of "/verify" "http://localhost:8080" = true.
Proof.
  exact (record_payout_url_iff_base_clear happy_world "http://localhost:8080"
           eq_refl).
Defined.

(* ----------------------------------------------------------------- *)
(** ** Treasury account derivation *)

Lemma replace_plain s : plain s = true -> replace "," " " s = s.
Proof.
  induction s as [| c s IH]; [reflexivity |]. simpl.
  intros H. apply andb_prop in H. destruct H as [H Hs].
  apply andb_prop in H. destruct H as [_ Hc].
  apply negb_true_iff in Hc. rewrite Hc. now rewrite IH.
Qed.

Lemma plain_spaceless s : plain s = true -> spaceless s = true.
Proof.
  induction s as [| c s IH]; [reflexivity |]. simpl.
  intros H. apply andb_prop in H. destruct H as [H Hs].
  apply andb_prop in H. destruct H as [Hc _].
  now rewrite Hc, IH.
Qed.

Lemma rstrip_space_spaceless s : spaceless s = true -> rstrip_space s = s.
Proof.
  induction s as [| c s IH]; [reflexivity |]. simpl.
  intros H. apply andb_prop in H. destruct H as [Hc Hs].
  apply negb_true_iff in Hc. rewrite (IH Hs), Hc. now destruct s.
Qed.

Lemma lstrip_space_spaceless s : spaceless s = true -> lstrip_space s = s.
Proof.
  destruct s as [| c s]; [reflexivity |]. simpl.
  intros H. apply andb_prop in H. destruct H as [Hc _].
  apply negb_true_iff in Hc. now rewrite Hc.
Qed.

Lemma strip_spaceless s : spaceless s = true -> strip s = s.
Proof.
  intros H. unfold strip.
  now rewrite rstrip_space_spaceless, lstrip_space_spaceless.
Qed.

Lemma split_spaceless s :
  spaceless s = true ->
  split s = match s with EmptyString => [] | _ => [s] end.
Proof.
  induction s as [| c s IH]; [reflexivity |]. simpl.
  intros H. apply andb_prop in H. destruct H as [Hc Hs].
  apply negb_true_iff in Hc. rewrite Hc, (IH Hs).
  destruct s as [| a s]; [reflexivity |].
  simpl in Hs. apply andb_prop in Hs. destruct Hs as [Ha _].
  apply negb_true_iff in Ha. simpl. now rewrite Ha.
Qed.

(** X19.  A secret without whitespace or comma, such as a hexadecimal
    private key, is always taken as a raw key, unchanged. *)
Theorem _derive_account_plain_secret_is_key :
  forall secret,
    ascii_only secret ->
    plain secret = true ->
    _derive_account secret = from_key secret.
Proof.
  intros secret _ H. unfold _derive_account.
  rewrite (replace_plain secret H).
  pose proof (plain_spaceless secret H) as Hs.
  rewrite (strip_spaceless secret Hs), (split_spaceless secret Hs).
  now destruct secret.
Qed.

Lemma _derive_account_plain_secret_is_key_witness :
  _derive_account "0x4c0883a69102937d6231471b5dbb6204fe512961708279f3b1a5e2b1c8d9e0f1"
  = from_key "0x4c0883a69102937d6231471b5dbb6204fe512961708279f3b1a5e2b1c8d9e0f1".
Proof.
  apply _derive_account_plain_secret_is_key.
  - unfold ascii_only. simpl. repeat constructor.
  - reflexivity.
Defined.

Lemma replace_append old new a b :
  replace old new (a ++ b) = replace old new a ++ replace old new b.
Proof. induction a as [| c a IH]; simpl; [reflexivity | now rewrite IH]. Qed.

Lemma word_plain w : word w = true -> plain w = true.
Proof. unfold word. intros H. now apply andb_prop in H. Qed.

(** Commas between the words become single spaces. *)
Lemma replace_join sep words :
  forallb word words = true ->
  replace "," " " (join sep words) = join (replace "," " " sep) words.
Proof.
  induction words as [| w words IH]; [reflexivity |].
  intros H. simpl in H. apply andb_prop in H. destruct H as [Hw Hws].
  specialize (IH Hws). destruct words as [| w' words].
  - simpl. apply replace_plain. now apply word_plain.
  - change (join sep (w :: w' :: words))
      with (w ++ sep ++ join sep (w' :: words)).
    change (join (replace "," " " sep) (w :: w' :: words))
      with (w ++ replace "," " " sep ++ join (replace "," " " sep) (w' :: words)).
    rewrite !replace_append, IH, (replace_plain w); [reflexivity |].
    now apply word_plain.
Qed.

Lemma rstrip_space_append a b :
  rstrip_space b = b -> b <> EmptyString ->
  rstrip_space (a ++ b) = a ++ b.
Proof.
  intros Hb Hne. induction a as [| c a IH]; [exact Hb |].
  simpl. rewrite IH. destruct (a ++ b) eqn:E; [| reflexivity].
  destruct a; [now destruct Hne | discriminate].
Qed.

Lemma join_words_not_empty sep w words :
  word w = true -> join sep (w :: words) <> EmptyString.
Proof.
  unfold word. intros H. apply andb_prop in H. destruct H as [H _].
  destruct w as [| c w]; [discriminate |].
  destruct words; simpl; discriminate.
Qed.

(** Words joined by a separator with no trailing whitespace of its own
    content: nothing to strip at either end. *)
Lemma rstrip_space_join sep words :
  forallb word words = true ->
  rstrip_space (join sep words) = join sep words.
Proof.
  induction words as [| w words IH]; [reflexivity |].
  intros H. simpl in H. apply andb_prop in H. destruct H as [Hw Hws].
  specialize (IH Hws). destruct words as [| w' words].
  - simpl. apply rstrip_space_spaceless, plain_spaceless. now apply word_plain.
  - change (join sep (w :: w' :: words))
      with (w ++ sep ++ join sep (w' :: words)).
    simpl in Hws. apply andb_prop in Hws. destruct Hws as [Hw' _].
    pose proof (join_words_not_empty sep w' words Hw') as Hne.
    rewrite rstrip_space_append; [reflexivity | |].
    + now apply rstrip_space_append.
    + destruct sep; [exact Hne | discriminate].
Qed.

Lemma lstrip_space_join sep words :
  forallb word words = true ->
  lstrip_space (join sep words) = join sep words.
Proof.
  destruct words as [| w words]; [reflexivity |].
  intros H. simpl in H. apply andb_prop in H. destruct H as [Hw _].
  unfold word in Hw. apply andb_prop in Hw. destruct Hw as [Hne Hp].
  destruct w as [| c w]; [discriminate |].
  simpl in Hp. apply andb_prop in Hp. destruct Hp as [Hp _].
  apply andb_prop in Hp. destruct Hp as [Hc _]. apply negb_true_iff in Hc.
  destruct words; simpl; now rewrite Hc.
Qed.

Lemma strip_join sep words :
  forallb word words = true -> strip (join sep words) = join sep words.
Proof.
  intros H. unfold strip. now rewrite rstrip_space_join, lstrip_space_join.
Qed.

(** A word followed by a space is the first token. *)
Lemma split_word_space w c s :
  plain w = true -> is_space c = false ->
  split (String c (w ++ String " " s)) = String c w :: split s.
Proof.
  revert c. induction w as [| a w IH]; intros c Hp Hc.
  - simpl. rewrite Hc. now destruct (split s).
  - simpl in Hp. apply andb_prop in Hp. destruct Hp as [Ha Hp].
    apply andb_prop in Ha. destruct Ha as [Ha _]. apply negb_true_iff in Ha.
    specialize (IH a Hp Ha).
    change (String a w ++ String " " s) with (String a (w ++ String " " s)).
    change (split (String c (String a (w ++ String " " s))))
      with (let ws := split (String a (w ++ String " " s)) in
            if is_space c then ws
            else match ws with
                 | w1 :: ws' =>
                     if starts_with_space (String a (w ++ String " " s))
                     then String c EmptyString :: ws
                     else String c w1 :: ws'
                 | [] => [String c EmptyString]
                 end).
    cbv zeta. rewrite IH, Hc. simpl. now rewrite Ha.
Qed.

Lemma split_join_space words :
  forallb word words = true -> split (join " " words) = words.
Proof.
  induction words as [| w words IH]; [reflexivity |].
  intros H. simpl in H. apply andb_prop in H. destruct H as [Hw Hws].
  specialize (IH Hws). unfold word in Hw. apply andb_prop in Hw.
  destruct Hw as [Hne Hp]. destruct w as [| c w]; [discriminate |].
  destruct words as [| w' words].
  - simpl join. rewrite split_spaceless; [reflexivity |].
    now apply plain_spaceless.
  - change (join " " (String c w :: w' :: words))
      with (String c (w ++ String " " (join " " (w' :: words)))).
    simpl in Hp. apply andb_prop in Hp. destruct Hp as [Hc Hp].
    apply andb_prop in Hc. destruct Hc as [Hc _]. apply negb_true_iff in Hc.
    now rewrite (split_word_space w c _ Hp Hc), IH.
Qed.

Lemma words_not_empty words :
  forallb word words = true ->
  forallb (fun w => negb (w =? "")%string) words = true.
Proof.
  induction words as [| w words IH]; [reflexivity |]. simpl.
  intros H. apply andb_prop in H. destruct H as [Hw Hws].
  unfold word in Hw. apply andb_prop in Hw. destruct Hw as [Hne _].
  now rewrite Hne, IH.
Qed.

(** X20.  Words (not empty, without whitespace or comma) joined by commas
    or by single spaces: with twelve words or more the secret is taken as
    a mnemonic, the words joined by single spaces; with fewer it is taken
    as a raw key, unchanged. *)
Theorem _derive_account_counts_words :
  forall sep words,
    sep = "," \/ sep = " " ->
    Forall ascii_only words ->
    forallb word words = true ->
    _derive_account (join sep words)
    = if (12 <=? length words)%nat then from_mnemonic (join " " words)
      else from_key (join sep words).
Proof.
  intros sep words Hsep _ Hw. unfold _derive_account.
  rewrite (replace_join sep words Hw).
  assert (Hsp : replace "," " " sep = " ")
    by (destruct Hsep as [-> | ->]; reflexivity).
  rewrite Hsp, !(strip_join _ words Hw), (split_join_space words Hw).
  rewrite (words_not_empty words Hw), andb_true_r. reflexivity.
Qed.

Lemma _derive_account_counts_words_witness :
  _derive_account "a,b,c,d,e,f,g,h,i,j,k,l"
  = from_mnemonic "a b c d e f g h i j k l"
  /\ _derive_account "a b c d e f g h i j k"
     = from_key "a b c d e f g h i j k".
Proof.
  split.
  - refine (_derive_account_counts_words ","
              ["a"; "b"; "c"; "d"; "e"; "f"; "g"; "h"; "i"; "j"; "k"; "l"]
              (or_introl eq_refl) _ eq_refl).
    repeat constructor.
  - refine (_derive_account_counts_words " "
              ["a"; "b"; "c"; "d"; "e"; "f"; "g"; "h"; "i"; "j"; "k"]
              (or_intror eq_refl) _ eq_refl).
    repeat constructor.
Defined.

(* ----------------------------------------------------------------- *)
(** ** More edges of the gateway and the orchestrator *)






